(** * The updater binary: argument checking, script loading and abort reporting

    A shallow embedding of [updater/updater.cpp] (function [main]) and of the
    C and libbase routines it calls on strings, followed by the properties of
    the driver: exit codes, what is written on the command pipe, how the
    abort message is split and scanned for an error code, and the life cycle
    of the package archive handle.

    Strings are [string] (a [std::string] may hold any byte, also NUL); the C
    view of a string, what [c_str()] and a [char*] argument denote, is the
    prefix before the first NUL and is written out as [c_str].  An [int] is a
    [Z]; the only place where the width matters is the store of a scanned
    number, see [to_int]. *)

From Stdlib Require Import ZArith String Ascii List Bool Lia DecimalString.
Import ListNotations.

Local Open Scope string_scope.
Local Open Scope Z_scope.

(* ================================================================== *)
(** ** The C library, as far as [main] uses it *)

Module CLib.

Definition NUL : ascii := "000"%char.
Definition LF : ascii := "010"%char.

(** What a [const char*] pointing at the bytes of [s] denotes: the bytes
    before the first NUL. *)
Fixpoint c_str (s : string) : string :=
  match s with
  | EmptyString => EmptyString
  | String c r => if Ascii.eqb c NUL then EmptyString else String c (c_str r)
  end.

(** [p[i]] for a [char*] (or [s[i]] for a [std::string]): the byte at [i],
    the terminating NUL at the end. *)
Definition char_at (s : string) (i : nat) : ascii :=
  match String.get i s with
  | Some c => c
  | None => NUL
  end.

(** [isspace] in the C locale: space, \t, \n, \v, \f, \r. *)
Definition isspace (c : ascii) : bool :=
  let n := nat_of_ascii c in
  (Nat.eqb n 32 || (Nat.leb 9 n && Nat.leb n 13))%bool.

Definition isdigit (c : ascii) : bool :=
  let n := nat_of_ascii c in
  (Nat.leb 48 n && Nat.leb n 57)%bool.

Definition digit_value (c : ascii) : Z := Z.of_nat (nat_of_ascii c) - 48.

Fixpoint skip_space (s : string) : string :=
  match s with
  | String c r => if isspace c then skip_space r else s
  | EmptyString => EmptyString
  end.

(** The decimal digits at the front of [s], accumulated onto [acc]. *)
Fixpoint scan_digits (acc : Z) (s : string) : Z :=
  match s with
  | String c r => if isdigit c then scan_digits (10 * acc + digit_value c) r else acc
  | EmptyString => acc
  end.

Definition INT_MIN : Z := - 2 ^ 31.
Definition INT_MAX : Z := 2 ^ 31 - 1.

(** The [int] that is stored for a scanned number [v].  For a representable
    [v] it is [v].  ISO C leaves the other case undefined; the C library
    saturates at the widest integer type and truncates to 32 bits, which is
    what is written out here. *)
Definition to_int (v : Z) : Z :=
  let sat := Z.max (- 2 ^ 63) (Z.min (2 ^ 63 - 1) v) in
  (sat + 2 ^ 31) mod 2 ^ 32 - 2 ^ 31.

(** The outcome of one [%d] conversion (also of [strtol] in base 10). *)
Inductive Scan : Type :=
| Converted (v : Z)   (* a number was read *)
| MatchFail           (* the input does not start with a number *)
| InputFail.          (* the input ended before anything could be read *)

(** [%d]: white space is skipped, then an optional sign, then at least one
    decimal digit. *)
Definition scan_d (s : string) : Scan :=
  match skip_space s with
  | EmptyString => InputFail
  | String c r =>
      let '(neg, body) :=
        if Ascii.eqb c "-" then (true, r)
        else if Ascii.eqb c "+" then (false, r)
        else (false, String c r) in
      match body with
      | String d _ =>
          if isdigit d
          then Converted (if neg then - scan_digits 0 body else scan_digits 0 body)
          else MatchFail
      | EmptyString => MatchFail
      end
  end.

Definition EOF : Z := -1.

(** [sscanf(s, "E%d: ", &x)]: the return value and, when the conversion
    took place, the value stored in [x].  The directives after [%d] (the
    colon and the white space) assign nothing and do not change the return
    value: it counts the conversions that were stored. *)
Definition sscanf_E_d (s : string) : Z * option Z :=
  match c_str s with
  | EmptyString => (EOF, None)
  | String c r =>
      if Ascii.eqb c "E" then
        match scan_d r with
        | Converted v => (1, Some (to_int v))
        | MatchFail => (0, None)
        | InputFail => (EOF, None)
        end
      else (0, None)
  end.

(** [atoi(s)]: [(int) strtol(s, NULL, 10)], 0 when there is no number. *)
Definition atoi (s : string) : Z :=
  match scan_d (c_str s) with
  | Converted v => to_int v
  | _ => 0
  end.

(** [strcmp(a, b)]: only the sign is specified. *)
Definition strcmp (a b : string) : Z :=
  match String.compare (c_str a) (c_str b) with
  | Eq => 0
  | Lt => -1
  | Gt => 1
  end.

(** [%d] in a [printf] format. *)
Definition show_int (n : Z) : string := NilZero.string_of_int (Z.to_int n).

End CLib.
Import CLib.

(* ================================================================== *)
(** ** libbase *)

Fixpoint mem_char (c : ascii) (s : string) : bool :=
  match s with
  | EmptyString => false
  | String d r => (Ascii.eqb c d || mem_char c r)%bool
  end.

(** [android::base::Split(s, delimiters)]: the pieces of [s] between the
    bytes that occur in [delimiters]; empty pieces are kept, so [n]
    delimiters give [n + 1] pieces. *)
Fixpoint Split (s delimiters : string) : list string :=
  match s with
  | EmptyString => [EmptyString]
  | String c r =>
      let rest := Split r delimiters in
      if mem_char c delimiters then EmptyString :: rest
      else match rest with
           | h :: t => String c h :: t
           | [] => [String c EmptyString]
           end
  end.

Definition newline : string := String LF EmptyString.

(* ================================================================== *)
(** ** Data *)

Module MemMapping.
(** [MemMapping] of otautil/sysutil.h, the two fields [main] reads. *)
Record t : Type := { addr : Z; length : Z }.
End MemMapping.

(** A [FILE*] and a [ZipArchiveHandle] are pointers: the null stream is
    [None]; the null handle is [0]. *)
Definition FILE : Type := Z.
Definition ZipArchiveHandle : Type := Z.

Record ZipEntry : Type := { uncompressed_length : Z }.

(** [UpdaterInfo] of updater/updater.h, with the fields [main] fills in. *)
Record UpdaterInfo : Type := {
  cmd_pipe : option FILE;
  package_zip : ZipArchiveHandle;
  version : Z;
  package_zip_addr : Z;
  package_zip_len : Z
}.

(** Modelled from the spec: the [State] of edify/expr.h, whose declaration
    and constructor are not among the sources.  The execution context holds
    the script text, the evaluator configuration (the cookie), the retry
    flag, the abort message, the error code (default "no error") and the
    cause code (default "no cause"). *)
Record State : Type := {
  script : string;
  cookie : UpdaterInfo;
  errmsg : string;
  is_retry : bool;
  error_code : Z;
  cause_code : Z
}.

Definition set_error_code (st : State) (v : Z) : State :=
  {| script := script st; cookie := cookie st; errmsg := errmsg st;
     is_retry := is_retry st; error_code := v; cause_code := cause_code st |}.

Definition set_is_retry (st : State) (b : bool) : State :=
  {| script := script st; cookie := cookie st; errmsg := errmsg st;
     is_retry := b; error_code := error_code st; cause_code := cause_code st |}.

(** The constants of otautil/error_code.h that [main] names.  The header is
    not among the sources, so the values are parameters. *)
Record ErrorCodes : Type := {
  kNoError : Z;
  kScriptExecutionFailure : Z;
  kNoCause : Z;
  kPatchApplicationFailure : Z;
  kEioFailure : Z
}.

(** Modelled from the spec: [State(script, &updater_info)].  A fresh context
    has an empty abort message, the retry flag off and both codes at their
    defaults. *)
Definition State_init (K : ErrorCodes) (s : string) (info : UpdaterInfo) : State :=
  {| script := s; cookie := info; errmsg := EmptyString; is_retry := false;
     error_code := kNoError K; cause_code := kNoCause K |}.

(** What one call of [Evaluate(&state, root, &result)] leaves behind: the
    return value, the result string, the context, the [UpdaterInfo] object
    the cookie points to, and the bytes the script's functions wrote to the
    command pipe meanwhile. *)
Record Evaluation : Type := {
  status : bool;
  result : string;
  state_after : State;
  info_after : UpdaterInfo;
  pipe_output : string
}.

(** The collaborators of [main]: the C library's [fdopen], the package
    mapping, libziparchive, the edify parser and evaluator, and SELinux. *)
Record World : Type := {
  Expr : Type;
  fdopen : Z -> option FILE;
  MapFile : string -> option MemMapping.t;
  OpenArchiveFromMemory : Z -> Z -> string -> Z * ZipArchiveHandle;
  FindEntry : ZipArchiveHandle -> string -> Z * ZipEntry;
  ExtractToMemory : ZipArchiveHandle -> ZipEntry -> Z * string;
  ErrorCodeString : Z -> string;           (* a [const char*] *)
  ParseString : string -> Z * Z * Expr;   (* return value, error_count, root *)
  selinux_android_file_context_handle : Z;
  Evaluate : State -> Expr -> Evaluation
}.

(* ================================================================== *)
(** ** Effects *)

(** What a run of [main] does to the outside, in order. *)
Inductive Event : Type :=
| EvStdout (text : string)               (* bytes written to stdout *)
| EvFdopen (fd : Z)
| EvMapFile (path : string)
| EvOpenArchive (h : ZipArchiveHandle)   (* the handle the call stored *)
| EvCloseArchive (h : ZipArchiveHandle)
| EvRegister (what : string)
| EvEvaluate (st : State) (ev : Evaluation)   (* the context given, what came back *)
| EvFprintf (stream : FILE) (text : string).

(** How [main] ends: [return code], or the use of a null stream, for which C
    defines no behaviour. *)
Inductive Outcome : Type :=
| Exit (code : Z)
| Fault.

(** A computation lists its events and either goes on with a value or has
    left [main]. *)
Definition M (A : Type) : Type := list Event * (A + Outcome).

Definition ret {A : Type} (a : A) : M A := ([], inl a).

Definition bind {A B : Type} (m : M A) (k : A -> M B) : M B :=
  match m with
  | (t, inl a) => let '(t', r) := k a in ((t ++ t')%list, r)
  | (t, inr o) => (t, inr o)
  end.

Definition emit (e : Event) : M unit := ([e], inl tt).
Definition Return {A : Type} (code : Z) : M A := ([], inr (Exit code)).
Definition fault {A : Type} : M A := ([], inr Fault).

Notation "x <- m ;; k" := (bind m (fun x => k))
  (at level 61, m at next level, right associativity).
Notation "' pat <- m ;; k" := (bind m (fun x => match x with pat => k end))
  (at level 61, pat pattern, m at next level, right associativity).
Notation "m ;; k" := (bind m (fun _ => k))
  (at level 61, right associativity).

(** [UpdaterLogger(id, severity, tag, file, line, message)], lines 53-57:
    the bytes it prints on stdout.  [message] is a [const char*], so what is
    printed ends at the first NUL; the other arguments are not looked at. *)
Definition UpdaterLogger (message : string) : string := c_str message ++ newline.

(** What one [LOG(severity) << ...] statement puts on stdout: libbase hands
    the message to the logger line by line, each line as a C string. *)
Definition log_text (message : string) : string :=
  fold_right (fun line text => UpdaterLogger line ++ text) EmptyString
             (Split message newline).

(** [LOG(severity) << message], whatever the severity. *)
Definition LOG (message : string) : M unit := emit (EvStdout (log_text message)).

Definition printf (text : string) : M unit := emit (EvStdout text).

Definition setlinebuf (stream : option FILE) : M unit :=
  match stream with
  | Some _ => ret tt
  | None => fault
  end.

Definition fprintf (stream : option FILE) (text : string) : M unit :=
  match stream with
  | Some f => emit (EvFprintf f text)
  | None => fault
  end.

Definition CloseArchive (h : ZipArchiveHandle) : M unit := emit (EvCloseArchive h).

Definition when (b : bool) (m : M unit) : M unit := if b then m else ret tt.

(* ================================================================== *)
(** ** [main] *)

Definition SCRIPT_NAME : string := "META-INF/com/google/android/updater-script".

(** [argv[i]]. *)
Definition arg (argv : list string) (i : nat) : string := nth i argv EmptyString.

Section Updater.

Variable K : ErrorCodes.
Variable W : World.

(** Lines 71-81: the argument count and the API version. *)
Definition check_args (argv : list string) : M unit :=
  let argc := Z.of_nat (List.length argv) in
  when (negb (argc =? 4) && negb (argc =? 5))
    (LOG ("unexpected number of arguments: " ++ show_int argc) ;; Return 1) ;;
  let version := arg argv 1 in
  when ((negb (Ascii.eqb (char_at version 0) "1")
         && negb (Ascii.eqb (char_at version 0) "2")
         && negb (Ascii.eqb (char_at version 0) "3"))
        || negb (Ascii.eqb (char_at version 1) NUL))
    (LOG ("wrong updater binary API; expected 1, 2, or 3; got " ++ c_str (arg argv 1)) ;;
     Return 2).

(** Lines 85-87: the pipe for commands to the parent.  The result of
    [fdopen] goes to [setlinebuf] as it is. *)
Definition open_cmd_pipe (argv : list string) : M (option FILE) :=
  let fd := atoi (arg argv 2) in
  emit (EvFdopen fd) ;;
  let cmd_pipe := fdopen W fd in
  setlinebuf cmd_pipe ;;
  ret cmd_pipe.

(** Lines 91-123: map the package, open it, find and read the script. *)
Definition extract_script (argv : list string)
  : M (MemMapping.t * ZipArchiveHandle * string) :=
  let package_filename := c_str (arg argv 3) in
  emit (EvMapFile package_filename) ;;
  match MapFile W package_filename with
  | None => LOG ("failed to map package " ++ c_str (arg argv 3)) ;; Return 3
  | Some map =>
      let '(open_err, za) :=
        OpenArchiveFromMemory W (MemMapping.addr map) (MemMapping.length map)
                              (c_str (arg argv 3)) in
      emit (EvOpenArchive za) ;;
      when (negb (open_err =? 0))
        (LOG ("failed to open package " ++ c_str (arg argv 3) ++ ": "
              ++ c_str (ErrorCodeString W open_err)) ;;
         CloseArchive za ;;
         Return 3) ;;
      let '(find_err, script_entry) := FindEntry W za SCRIPT_NAME in
      when (negb (find_err =? 0))
        (LOG ("failed to find " ++ SCRIPT_NAME ++ " in " ++ package_filename ++ ": "
              ++ c_str (ErrorCodeString W find_err)) ;;
         CloseArchive za ;;
         Return 4) ;;
      let '(extract_err, script) := ExtractToMemory W za script_entry in
      when (negb (extract_err =? 0))
        (LOG ("failed to read script from package: "
              ++ c_str (ErrorCodeString W extract_err)) ;;
         CloseArchive za ;;
         Return 5) ;;
      ret (map, za, script)
  end.

(** Lines 127-143: register the edify functions and parse the script. *)
Definition parse_script (za : ZipArchiveHandle) (script : string) : M (Expr W) :=
  emit (EvRegister "Builtins") ;;
  emit (EvRegister "FsUpdaterFunctions") ;;
  emit (EvRegister "InstallFunctions") ;;
  emit (EvRegister "BlockImageFunctions") ;;
  emit (EvRegister "DynamicPartitionsFunctions") ;;
  emit (EvRegister "DeviceExtensions") ;;
  let '(error, error_count, root) := ParseString W script in
  when (negb (error =? 0) || (0 <? error_count))
    (LOG (show_int error_count ++ " parse errors") ;;
     CloseArchive za ;;
     Return 6) ;;
  ret root.

(** Lines 184-189: one line of the abort message. *)
Definition scan_line (cmd_pipe : option FILE) (state : State) (line : string) : M State :=
  state' <-
    (if negb (String.eqb line EmptyString) && Ascii.eqb (char_at line 0) "E" then
       let '(n, stored) := sscanf_E_d line in
       when (negb (n =? 1)) (LOG ("Failed to parse error code: [" ++ line ++ "]")) ;;
       ret (match stored with
            | Some v => set_error_code state v
            | None => state
            end)
     else ret state) ;;
  fprintf cmd_pipe ("ui_print " ++ c_str line ++ newline) ;;
  ret state'.

(** Lines 181-190: the loop over the lines. *)
Fixpoint scan_lines (cmd_pipe : option FILE) (state : State) (lines : list string)
  : M State :=
  match lines with
  | [] => ret state
  | line :: rest =>
      state' <- scan_line cmd_pipe state line ;;
      scan_lines cmd_pipe state' rest
  end.

(** Lines 175-209: what is sent for a script that aborted, and the error
    code the context ends with. *)
Definition report_abort (cmd_pipe : option FILE) (state : State) : M State :=
  state1 <-
    (if String.eqb (errmsg state) EmptyString then
       LOG "script aborted (no error message)" ;;
       fprintf cmd_pipe ("ui_print script aborted (no error message)" ++ newline) ;;
       ret state
     else
       LOG ("script aborted: " ++ errmsg state) ;;
       scan_lines cmd_pipe state (Split (errmsg state) newline)) ;;
  let state2 :=
    if error_code state1 =? kNoError K
    then set_error_code state1 (kScriptExecutionFailure K)
    else state1 in
  fprintf cmd_pipe ("log error: " ++ show_int (error_code state2) ++ newline) ;;
  when (negb (cause_code state2 =? kNoCause K))
    (fprintf cmd_pipe ("log cause: " ++ show_int (cause_code state2) ++ newline) ;;
     if cause_code state2 =? kPatchApplicationFailure K then
       LOG "Patch application failed, retry update." ;;
       fprintf cmd_pipe ("retry_update" ++ newline)
     else if cause_code state2 =? kEioFailure K then
       LOG "Update failed due to EIO, retry update." ;;
       fprintf cmd_pipe ("retry_update" ++ newline)
     else ret tt) ;;
  ret state2.

(** Lines 145-172: the SELinux handle, the context, the retry argument,
    and the evaluation. *)
Definition evaluate_script (argv : list string) (cmd_pipe : option FILE)
    (map : MemMapping.t) (za : ZipArchiveHandle) (script : string) (root : Expr W)
  : M Evaluation :=
  let argc := Z.of_nat (List.length argv) in
  let sehandle := selinux_android_file_context_handle W in
  when (sehandle =? 0) (fprintf cmd_pipe ("ui_print Warning: No file_contexts" ++ newline)) ;;
  let updater_info :=
    {| cmd_pipe := cmd_pipe; package_zip := za; version := atoi (arg argv 1);
       package_zip_addr := MemMapping.addr map;
       package_zip_len := MemMapping.length map |} in
  let state := State_init K script updater_info in
  state <-
    (if argc =? 5 then
       if strcmp (arg argv 4) "retry" =? 0 then ret (set_is_retry state true)
       else printf ("unexpected argument: " ++ c_str (arg argv 4)) ;; ret state
     else ret state) ;;
  let ev := Evaluate W state root in
  emit (EvEvaluate state ev) ;;
  when (negb (String.eqb (pipe_output ev) EmptyString))
    (fprintf cmd_pipe (pipe_output ev)) ;;
  ret ev.

Definition main_body (argv : list string) : M Z :=
  check_args argv ;;
  cmd_pipe <- open_cmd_pipe argv ;;
  '(map, za, script) <- extract_script argv ;;
  root <- parse_script za script ;;
  ev <- evaluate_script argv cmd_pipe map za script root ;;
  let updater_info := info_after ev in
  (if negb (status ev) then
     report_abort cmd_pipe (state_after ev) ;;
     when (negb (package_zip updater_info =? 0)) (CloseArchive (package_zip updater_info)) ;;
     Return 7
   else
     fprintf cmd_pipe ("ui_print script succeeded: result was [" ++ c_str (result ev)
                       ++ "]" ++ newline)) ;;
  when (negb (package_zip updater_info =? 0)) (CloseArchive (package_zip updater_info)) ;;
  ret 0.

Definition main (argv : list string) : list Event * Outcome :=
  let '(t, r) := main_body argv in
  (t, match r with
      | inl code => Exit code
      | inr o => o
      end).

End Updater.

(* ================================================================== *)
(** ** What a run shows *)

(** The bytes written with [fprintf]; [cmd_pipe] is the only stream [main]
    writes to that way. *)
Fixpoint pipe_text (t : list Event) : string :=
  match t with
  | [] => EmptyString
  | EvFprintf _ text :: r => text ++ pipe_text r
  | _ :: r => pipe_text r
  end.

(** The lines of a text: what stands before each newline. *)
Definition lines_of (text : string) : list string := removelast (Split text newline).

(** The lines the parent reads from the command pipe. *)
Definition pipe_lines (t : list Event) : list string := lines_of (pipe_text t).

Fixpoint starts_with (p s : string) : bool :=
  match p, s with
  | EmptyString, _ => true
  | String a p', String b s' => Ascii.eqb a b && starts_with p' s'
  | String _ _, EmptyString => false
  end.

Definition is_ui_print (line : string) : bool := starts_with "ui_print " line.

Definition ui_print_lines (t : list Event) : list string :=
  filter is_ui_print (pipe_lines t).

Fixpoint opened (t : list Event) : list ZipArchiveHandle :=
  match t with
  | [] => []
  | EvOpenArchive h :: r => h :: opened r
  | _ :: r => opened r
  end.

Fixpoint closed (t : list Event) : list ZipArchiveHandle :=
  match t with
  | [] => []
  | EvCloseArchive h :: r => h :: closed r
  | _ :: r => closed r
  end.

(** The calls of [Evaluate]: the context given and what came back. *)
Fixpoint evaluations (t : list Event) : list (State * Evaluation) :=
  match t with
  | [] => []
  | EvEvaluate st ev :: r => (st, ev) :: evaluations r
  | _ :: r => evaluations r
  end.

(** A part of a run that only writes, to stdout or to the command pipe. *)
Definition talks (e : Event) : Prop :=
  match e with
  | EvStdout _ | EvFprintf _ _ => True
  | _ => False
  end.

(** Two computations that end alike and whose events are the same but for
    one event [e], which the first may have in addition. *)
Definition differ_by {A : Type} (e : Event) (m5 m4 : M A) : Prop :=
  snd m5 = snd m4
  /\ (fst m5 = fst m4
      \/ exists pre post, fst m4 = (pre ++ post)%list /\ fst m5 = (pre ++ e :: post)%list).

(** A run that only printed on stdout: it opened, mapped, wrote and closed
    nothing. *)
Definition only_stdout (t : list Event) : Prop :=
  exists text, t = [EvStdout text].


(** The error code a context has after [report_abort], if it returns. *)
Definition final_error_code (K : ErrorCodes) (cmd_pipe : option FILE) (state : State)
  : option Z :=
  match snd (report_abort K cmd_pipe state) with
  | inl state' => Some (error_code state')
  | inr _ => None
  end.

(** The error code a context has after the loop over [lines]. *)
Definition error_code_after (cmd_pipe : option FILE) (state : State) (lines : list string)
  : option Z :=
  match snd (scan_lines cmd_pipe state lines) with
  | inl state' => Some (error_code state')
  | inr _ => None
  end.

(** *** The pattern [E<digits>: ] as the specification writes it *)

Fixpoint all_digits (ds : string) : bool :=
  match ds with
  | EmptyString => true
  | String c r => isdigit c && all_digits r
  end.

(** The number a digit string denotes, by position. *)
Fixpoint decimal_value (ds : string) : Z :=
  match ds with
  | EmptyString => 0
  | String c r => digit_value c * 10 ^ Z.of_nat (String.length r) + decimal_value r
  end.

(** [line] is [E], the digits [ds], a colon and a space, and then [rest]. *)
Definition matches_E_digits (line ds rest : string) : Prop :=
  line = "E" ++ ds ++ ": " ++ rest /\ ds <> EmptyString /\ all_digits ds = true.

(** The lines after the error message in a report: the cause code when it
    is set, and the retry request for the two causes that ask for one. *)
Definition cause_lines (K : ErrorCodes) (cause : Z) : list string :=
  if cause =? kNoCause K then []
  else ("log cause: " ++ show_int cause)
       :: (if (cause =? kPatchApplicationFailure K) || (cause =? kEioFailure K)
           then ["retry_update"] else []).

(** *** The report of an aborted script, as values *)

(** The text that carries the given lines. *)
Definition wire (ls : list string) : string :=
  fold_right (fun l text => l ++ newline ++ text) EmptyString ls.

(** The number [scan_line] stores for a line, if it stores one. *)
Definition stored_code (line : string) : option Z :=
  if negb (String.eqb line EmptyString) && Ascii.eqb (char_at line 0) "E"
  then snd (sscanf_E_d line)
  else None.

Definition after_line (state : State) (line : string) : State :=
  match stored_code line with
  | Some v => set_error_code state v
  | None => state
  end.

(** The context after the whole abort message has been looked at. *)
Definition scanned (state : State) : State :=
  if String.eqb (errmsg state) EmptyString then state
  else fold_left after_line (Split (errmsg state) newline) state.

Definition classified (K : ErrorCodes) (state : State) : State :=
  if error_code (scanned state) =? kNoError K
  then set_error_code (scanned state) (kScriptExecutionFailure K)
  else scanned state.

Definition message_lines (state : State) : list string :=
  if String.eqb (errmsg state) EmptyString
  then ["ui_print script aborted (no error message)"]
  else map (fun l => "ui_print " ++ c_str l) (Split (errmsg state) newline).

(** *** The runs of [main], path by path *)

Definition args_ok (argv : list string) : Prop :=
  (List.length argv = 4%nat \/ List.length argv = 5%nat)
  /\ (c_str (arg argv 1) = "1" \/ c_str (arg argv 1) = "2" \/ c_str (arg argv 1) = "3").

Definition registrations : list Event :=
  [EvRegister "Builtins"; EvRegister "FsUpdaterFunctions"; EvRegister "InstallFunctions";
   EvRegister "BlockImageFunctions"; EvRegister "DynamicPartitionsFunctions";
   EvRegister "DeviceExtensions"].

(** [if (updater_info.package_zip) CloseArchive(updater_info.package_zip)]. *)
Definition close_if (h : ZipArchiveHandle) : list Event :=
  if h =? 0 then [] else [EvCloseArchive h].

Definition retry_requested (argv : list string) : bool :=
  (Z.of_nat (List.length argv) =? 5) && (strcmp (arg argv 4) "retry" =? 0).

(** The context [Evaluate] receives. *)
Definition context (K : ErrorCodes) (argv : list string) (f : FILE)
    (map : MemMapping.t) (za : ZipArchiveHandle) (script : string) : State :=
  {| script := script;
     cookie := {| cmd_pipe := Some f; package_zip := za; version := atoi (arg argv 1);
                  package_zip_addr := MemMapping.addr map;
                  package_zip_len := MemMapping.length map |};
     errmsg := EmptyString;
     is_retry := retry_requested argv;
     error_code := kNoError K;
     cause_code := kNoCause K |}.

Definition no_contexts_warning (W : World) (f : FILE) : list Event :=
  if selinux_android_file_context_handle W =? 0
  then [EvFprintf f ("ui_print Warning: No file_contexts" ++ newline)]
  else [].

Definition retry_note (argv : list string) : list Event :=
  if (Z.of_nat (List.length argv) =? 5) && negb (strcmp (arg argv 4) "retry" =? 0)
  then [EvStdout ("unexpected argument: " ++ c_str (arg argv 4))]
  else [].

Definition script_output (f : FILE) (ev : Evaluation) : list Event :=
  if String.eqb (pipe_output ev) EmptyString then [] else [EvFprintf f (pipe_output ev)].

(** Everything up to the evaluation went well. *)
Record Loaded (W : World) (argv : list string) (f : FILE) (map : MemMapping.t)
    (za : ZipArchiveHandle) (script : string) (root : Expr W) : Prop := {
  loaded_args : args_ok argv;
  loaded_pipe : fdopen W (atoi (arg argv 2)) = Some f;
  loaded_map : MapFile W (c_str (arg argv 3)) = Some map;
  loaded_open :
    OpenArchiveFromMemory W (MemMapping.addr map) (MemMapping.length map)
                          (c_str (arg argv 3)) = (0, za);
  loaded_script :
    exists entry, FindEntry W za SCRIPT_NAME = (0, entry)
                  /\ ExtractToMemory W za entry = (0, script);
  loaded_parse : exists n, ParseString W script = (0, n, root) /\ n <= 0
}.

(** What a run does before [Evaluate] returns. *)
Definition before_report (K : ErrorCodes) (W : World) (argv : list string) (f : FILE)
    (map : MemMapping.t) (za : ZipArchiveHandle) (script : string) (ev : Evaluation)
  : list Event :=
  ([EvFdopen (atoi (arg argv 2)); EvMapFile (c_str (arg argv 3)); EvOpenArchive za]
   ++ registrations
   ++ no_contexts_warning W f
   ++ retry_note argv
   ++ EvEvaluate (context K argv f map za script) ev :: script_output f ev)%list.

(** The ten ways through [main]. *)
Inductive Run (K : ErrorCodes) (W : World) (argv : list string)
  : list Event -> Outcome -> Prop :=
| run_bad_count text :
    List.length argv <> 4%nat -> List.length argv <> 5%nat ->
    Run K W argv [EvStdout text] (Exit 1)
| run_bad_version text :
    List.length argv = 4%nat \/ List.length argv = 5%nat ->
    ~ (c_str (arg argv 1) = "1" \/ c_str (arg argv 1) = "2" \/ c_str (arg argv 1) = "3") ->
    Run K W argv [EvStdout text] (Exit 2)
| run_no_pipe :
    args_ok argv ->
    fdopen W (atoi (arg argv 2)) = None ->
    Run K W argv [EvFdopen (atoi (arg argv 2))] Fault
| run_no_map f text :
    args_ok argv ->
    fdopen W (atoi (arg argv 2)) = Some f ->
    MapFile W (c_str (arg argv 3)) = None ->
    Run K W argv
        [EvFdopen (atoi (arg argv 2)); EvMapFile (c_str (arg argv 3)); EvStdout text]
        (Exit 3)
| run_no_archive f za text :
    args_ok argv ->
    fdopen W (atoi (arg argv 2)) = Some f ->
    Run K W argv
        [EvFdopen (atoi (arg argv 2)); EvMapFile (c_str (arg argv 3)); EvOpenArchive za;
         EvStdout text; EvCloseArchive za]
        (Exit 3)
| run_no_script f za text :
    args_ok argv ->
    fdopen W (atoi (arg argv 2)) = Some f ->
    Run K W argv
        [EvFdopen (atoi (arg argv 2)); EvMapFile (c_str (arg argv 3)); EvOpenArchive za;
         EvStdout text; EvCloseArchive za]
        (Exit 4)
| run_no_extract f za text :
    args_ok argv ->
    fdopen W (atoi (arg argv 2)) = Some f ->
    Run K W argv
        [EvFdopen (atoi (arg argv 2)); EvMapFile (c_str (arg argv 3)); EvOpenArchive za;
         EvStdout text; EvCloseArchive za]
        (Exit 5)
| run_no_parse f za text :
    args_ok argv ->
    fdopen W (atoi (arg argv 2)) = Some f ->
    Run K W argv
        ([EvFdopen (atoi (arg argv 2)); EvMapFile (c_str (arg argv 3)); EvOpenArchive za]
         ++ registrations ++ [EvStdout text; EvCloseArchive za])
        (Exit 6)
| run_aborted f map za script root ev :
    Loaded W argv f map za script root ->
    ev = Evaluate W (context K argv f map za script) root ->
    status ev = false ->
    Run K W argv
        (before_report K W argv f map za script ev
         ++ fst (report_abort K (Some f) (state_after ev))
         ++ close_if (package_zip (info_after ev)))
        (Exit 7)
| run_succeeded f map za script root ev :
    Loaded W argv f map za script root ->
    ev = Evaluate W (context K argv f map za script) root ->
    status ev = true ->
    Run K W argv
        (before_report K W argv f map za script ev
         ++ EvFprintf f ("ui_print script succeeded: result was [" ++ c_str (result ev)
                         ++ "]" ++ newline)
            :: close_if (package_zip (info_after ev)))
        (Exit 0).

(** *** Sample collaborators *)

(** Some distinct values for the constants. *)
Definition sample_codes : ErrorCodes :=
  {| kNoError := -1; kScriptExecutionFailure := 25; kNoCause := -1;
     kPatchApplicationFailure := 115; kEioFailure := 117 |}.

(** A script evaluator that ends with the given status, result, abort
    message and cause code and leaves everything else as it found it. *)
Definition sample_Evaluate (ok : bool) (res msg : string) (cause : Z)
    (st : State) (_ : unit) : Evaluation :=
  {| status := ok; result := res;
     state_after := {| script := script st; cookie := cookie st; errmsg := msg;
                       is_retry := is_retry st; error_code := error_code st;
                       cause_code := cause |};
     info_after := cookie st;
     pipe_output := EmptyString |}.

(** A package that maps, opens, holds a script and parses (when the
    respective error code is 0); descriptor 3 is the open pipe; [se] is the
    SELinux handle. *)
Definition sample_world (find_err extract_err parse_err se : Z)
    (ok : bool) (res msg : string) (cause : Z) : World :=
  {| Expr := unit;
     fdopen := fun fd => if fd =? 3 then Some 3 else None;
     MapFile := fun _ => Some {| MemMapping.addr := 4096; MemMapping.length := 64 |};
     OpenArchiveFromMemory := fun _ _ _ => (0, 7);
     FindEntry := fun _ _ => (find_err, {| uncompressed_length := 5 |});
     ExtractToMemory := fun _ _ => (extract_err, "abort");
     ErrorCodeString := fun _ => "I/O error";
     ParseString := fun _ => (parse_err, 0, tt);
     selinux_android_file_context_handle := se;
     Evaluate := sample_Evaluate ok res msg cause |}.

Definition sample_info : UpdaterInfo :=
  {| cmd_pipe := Some 3; package_zip := 7; version := 3;
     package_zip_addr := 4096; package_zip_len := 64 |}.

(** A context as an aborted script leaves it. *)
Definition aborted (msg : string) (code cause : Z) : State :=
  {| script := "abort"; cookie := sample_info; errmsg := msg; is_retry := false;
     error_code := code; cause_code := cause |}.

Definition sample_argv : list string := ["updater"; "3"; "3"; "/tmp/update.zip"].

Definition E30_E40 : string := "E30: unsupported device" ++ newline ++ "E40: ignored".

(** *** More to look at in a run *)

(** The pieces put together again, [sep] between them. *)
Fixpoint join (sep : string) (pieces : list string) : string :=
  match pieces with
  | [] => EmptyString
  | [p] => p
  | p :: rest => p ++ sep ++ join sep rest
  end.

(** The first argument names one of the three API versions. *)
Definition version_ok (argv : list string) : Prop :=
  c_str (arg argv 1) = "1" \/ c_str (arg argv 1) = "2" \/ c_str (arg argv 1) = "3".

(** The error code a report carries when no line of the message set one. *)
Definition forced (K : ErrorCodes) (code : Z) : Z :=
  if code =? kNoError K then kScriptExecutionFailure K else code.

(** A package whose mapping, opening and parsing go as the arguments say;
    descriptor 3 is the open pipe. *)
Definition broken_package (mapped : bool) (open_err parse_err parse_count : Z) : World :=
  {| Expr := unit;
     fdopen := fun fd => if fd =? 3 then Some 3 else None;
     MapFile := fun _ => if mapped
                         then Some {| MemMapping.addr := 4096; MemMapping.length := 64 |}
                         else None;
     OpenArchiveFromMemory := fun _ _ _ => (open_err, 7);
     FindEntry := fun _ _ => (0, {| uncompressed_length := 5 |});
     ExtractToMemory := fun _ _ => (0, "abort");
     ErrorCodeString := fun _ => "I/O error";
     ParseString := fun _ => (parse_err, parse_count, tt);
     selinux_android_file_context_handle := 1;
     Evaluate := sample_Evaluate true "OK" EmptyString (-1) |}.

(** A world in which everything goes well and the script returns "OK". *)
Definition ok_world : World := sample_world 0 0 0 1 true "OK" EmptyString (-1).

Definition sample_map : MemMapping.t :=
  {| MemMapping.addr := 4096; MemMapping.length := 64 |}.

Definition retry_argv : list string :=
  ["updater"; "3"; "3"; "/tmp/update.zip"; "retry"].



(** One step of [main]: run the computation at the head of the goal. *)
Ltac step :=
  cbn [when bind ret emit LOG Return fault fst snd setlinebuf fprintf CloseArchive
       printf List.app].

(* ================================================================== *)
(** * Properties *)

(** ** Strings, lines and decimal numbers *)

Section Strings.

Lemma append_assoc (a b c : string) : (a ++ b) ++ c = a ++ b ++ c.
Proof. induction a as [|x a IH]; simpl; [reflexivity | now rewrite IH]. Qed.

Lemma append_empty_r (a : string) : a ++ EmptyString = a.
Proof. induction a as [|x a IH]; simpl; [reflexivity | now rewrite IH]. Qed.

Lemma mem_char_newline (c : ascii) : mem_char c newline = Ascii.eqb c LF.
Proof. unfold newline; simpl. apply orb_false_r. Qed.

Lemma mem_char_append (c : ascii) (a b : string) :
  mem_char c (a ++ b) = mem_char c a || mem_char c b.
Proof.
  induction a as [|x a IH]; simpl; [reflexivity|].
  rewrite IH. apply orb_assoc.
Qed.

Lemma Split_not_nil (s d : string) : Split s d <> [].
Proof.
  destruct s as [|c r]; simpl; [discriminate|].
  destruct (mem_char c d); [discriminate|].
  destruct (Split r d); discriminate.
Qed.

(** A text that starts with a line without newline, then a newline. *)
Lemma Split_line (s r : string) :
  mem_char LF s = false ->
  Split (s ++ newline ++ r) newline = s :: Split r newline.
Proof.
  induction s as [|c s IH]; intros H.
  - reflexivity.
  - cbn [mem_char] in H. apply orb_false_elim in H. destruct H as [Hc Hs].
    cbn [append Split]. rewrite mem_char_newline.
    replace (Ascii.eqb c LF) with false
      by (rewrite Ascii.eqb_sym; symmetry; exact Hc).
    rewrite (IH Hs). reflexivity.
Qed.

Lemma lines_of_line (s r : string) :
  mem_char LF s = false ->
  lines_of (s ++ newline ++ r) = s :: lines_of r.
Proof.
  intros H. unfold lines_of. rewrite (Split_line s r H).
  simpl. destruct (Split r newline) eqn:E; [|reflexivity].
  exfalso. exact (Split_not_nil _ _ E).
Qed.

(** Lines written one after the other are read back one by one. *)
Lemma lines_of_concat (ls : list string) :
  Forall (fun l => mem_char LF l = false) ls ->
  lines_of (fold_right (fun l text => l ++ newline ++ text) EmptyString ls) = ls.
Proof.
  induction 1 as [|l ls Hl _ IH]; cbn [fold_right].
  - reflexivity.
  - rewrite (lines_of_line _ _ Hl), IH. reflexivity.
Qed.

(** The pieces [Split] returns hold no delimiter. *)
Lemma Split_pieces (s d : string) (c : ascii) :
  mem_char c d = true -> Forall (fun p => mem_char c p = false) (Split s d).
Proof.
  intros Hc. induction s as [|x s IH]; simpl.
  - constructor; [reflexivity | constructor].
  - destruct (mem_char x d) eqn:Hx.
    + constructor; [reflexivity | exact IH].
    + destruct (Split s d) as [|h t]; inversion IH; subst.
      * constructor; [|constructor]. simpl.
        destruct (Ascii.eqb_spec c x) as [->|]; [congruence | reflexivity].
      * constructor; [|assumption]. simpl.
        destruct (Ascii.eqb_spec c x) as [->|]; [congruence | assumption].
Qed.



End Strings.

(** ** The C library routines *)

Section CLibFacts.

Lemma c_str_keeps_out (c : ascii) (s : string) :
  mem_char c s = false -> mem_char c (c_str s) = false.
Proof.
  induction s as [|x s IH]; simpl; intros H; [reflexivity|].
  apply orb_false_elim in H. destruct H as [Hx Hs].
  destruct (Ascii.eqb x NUL); simpl; [reflexivity|].
  rewrite Hx, (IH Hs). reflexivity.
Qed.

(** A string without NUL is its own C view. *)
Lemma c_str_id (s : string) : mem_char NUL s = false -> c_str s = s.
Proof.
  induction s as [|x s IH]; cbn [mem_char c_str]; intros H; [reflexivity|].
  apply orb_false_elim in H. destruct H as [Hx Hs].
  rewrite Ascii.eqb_sym in Hx. rewrite Hx, (IH Hs). reflexivity.
Qed.

Lemma string_of_uint_no_newline (d : Decimal.uint) :
  mem_char LF (NilEmpty.string_of_uint d) = false.
Proof. induction d; simpl; auto. Qed.

Lemma show_int_no_newline (n : Z) : mem_char LF (show_int n) = false.
Proof.
  unfold show_int, NilZero.string_of_int, NilZero.string_of_uint.
  destruct (Z.to_int n) as [d|d]; destruct d; simpl;
    auto using string_of_uint_no_newline.
Qed.

Lemma to_int_representable (v : Z) :
  INT_MIN <= v <= INT_MAX -> to_int v = v.
Proof.
  unfold INT_MIN, INT_MAX, to_int. intros H.
  rewrite Z.max_r by lia. rewrite Z.min_r by lia.
  rewrite Z.mod_small by lia. lia.
Qed.

Lemma digit_not (d c : ascii) : isdigit d = true -> isdigit c = false -> Ascii.eqb d c = false.
Proof.
  intros Hd Hc. destruct (Ascii.eqb_spec d c) as [->|]; [congruence | reflexivity].
Qed.

Lemma digit_not_space (d : ascii) : isdigit d = true -> isspace d = false.
Proof.
  unfold isdigit, isspace. intros H.
  apply andb_true_iff in H. destruct H as [H1 H2].
  apply Nat.leb_le in H1. apply Nat.leb_le in H2.
  apply orb_false_iff. split.
  - apply Nat.eqb_neq. lia.
  - apply andb_false_iff. right. apply Nat.leb_gt. lia.
Qed.

(** The scanning loop computes the positional value of the digits it
    passes and stops at the first byte that is no digit. *)
Lemma scan_digits_value (ds : string) (c : ascii) (tail : string) (acc : Z) :
  all_digits ds = true -> isdigit c = false ->
  scan_digits acc (ds ++ String c tail)
  = acc * 10 ^ Z.of_nat (String.length ds) + decimal_value ds.
Proof.
  revert acc. induction ds as [|d ds IH]; intros acc Hds Hc.
  - cbn [append scan_digits]. rewrite Hc. simpl. lia.
  - cbn [all_digits] in Hds. apply andb_true_iff in Hds. destruct Hds as [Hd Hds].
    cbn [append scan_digits]. rewrite Hd, (IH _ Hds Hc).
    cbn [String.length decimal_value].
    rewrite Nat2Z.inj_succ, Z.pow_succ_r by lia. lia.
Qed.

Lemma c_str_digits (ds tail : string) :
  all_digits ds = true -> c_str (ds ++ tail) = ds ++ c_str tail.
Proof.
  induction ds as [|d ds IH]; intros H; [reflexivity|].
  cbn [all_digits] in H. apply andb_true_iff in H. destruct H as [Hd Hds].
  cbn [append c_str]. rewrite (digit_not d NUL Hd eq_refl), (IH Hds). reflexivity.
Qed.

(** A line of the form [E<digits>: ...] scans, and the number stored is
    the one the digits denote. *)
Lemma sscanf_E_digits (line ds rest : string) :
  matches_E_digits line ds rest ->
  sscanf_E_d line = (1, Some (to_int (decimal_value ds))).
Proof.
  intros (-> & Hne & Hds).
  unfold sscanf_E_d. cbn [append c_str Ascii.eqb Bool.eqb NUL].
  rewrite (c_str_digits _ _ Hds). cbn [append c_str Ascii.eqb Bool.eqb NUL].
  destruct ds as [|d ds]; [congruence|].
  pose proof Hds as Hds'.
  cbn [all_digits] in Hds'. apply andb_true_iff in Hds'. destruct Hds' as [Hd _].
  unfold scan_d. cbn [append skip_space].
  rewrite (digit_not_space d Hd).
  rewrite (digit_not d "-" Hd eq_refl), (digit_not d "+" Hd eq_refl), Hd.
  change (String d (ds ++ String ":" (String " " (c_str rest))))
    with (String d ds ++ String ":" (String " " (c_str rest))).
  rewrite (scan_digits_value (String d ds) ":" _ 0 Hds eq_refl).
  rewrite Z.mul_0_l, Z.add_0_l. reflexivity.
Qed.

(** What [main] checks about the version argument, read on the argument
    as a C string. *)
Lemma version_check (v : string) :
  ((negb (Ascii.eqb (char_at v 0) "1") && negb (Ascii.eqb (char_at v 0) "2")
    && negb (Ascii.eqb (char_at v 0) "3"))
   || negb (Ascii.eqb (char_at v 1) NUL)) = false
  <-> (c_str v = "1" \/ c_str v = "2" \/ c_str v = "3").
Proof.
  destruct v as [|c [|d r]]; unfold char_at; cbn [String.get c_str].
  - cbn. split; [discriminate | intros [H|[H|H]]; discriminate].
  - destruct (Ascii.eqb_spec c "1") as [->|H1]; [cbn; intuition|].
    destruct (Ascii.eqb_spec c "2") as [->|H2]; [cbn; intuition|].
    destruct (Ascii.eqb_spec c "3") as [->|H3]; [cbn; intuition|].
    cbn. split; [discriminate|].
    destruct (Ascii.eqb c NUL); intros [H|[H|H]]; congruence.
  - destruct (Ascii.eqb_spec d NUL) as [->|Hd].
    + destruct (Ascii.eqb_spec c "1") as [->|H1]; [cbn; intuition|].
      destruct (Ascii.eqb_spec c "2") as [->|H2]; [cbn; intuition|].
      destruct (Ascii.eqb_spec c "3") as [->|H3]; [cbn; intuition|].
      cbn. split; [discriminate|].
      destruct (Ascii.eqb c NUL); intros [H|[H|H]]; congruence.
    + rewrite orb_true_r. split; [discriminate|].
      destruct (Ascii.eqb c NUL); intros [H|[H|H]]; congruence.
Qed.

Lemma strcmp_zero (a b : string) : strcmp a b = 0 <-> c_str a = c_str b.
Proof.
  unfold strcmp. split.
  - destruct (String.compare (c_str a) (c_str b)) eqn:E; try discriminate.
    intros _. now apply String.compare_eq_iff.
  - intros ->.
    assert (R : forall s, String.compare s s = Eq).
    { induction s as [|c s IH]; [reflexivity|]. simpl.
      unfold Ascii.compare. now rewrite N.compare_refl. }
    now rewrite R.
Qed.

End CLibFacts.

(** ** Computations *)

Section Computations.

Lemma bind_inl {A B : Type} (m : M A) (k : A -> M B) (a : A) :
  snd m = inl a -> bind m k = ((fst m ++ fst (k a))%list, snd (k a)).
Proof.
  destruct m as [t r]. simpl. intros ->. simpl. now destruct (k a).
Qed.

Lemma pipe_text_app (t u : list Event) :
  pipe_text (t ++ u) = pipe_text t ++ pipe_text u.
Proof.
  induction t as [|e t IH]; [reflexivity|].
  destruct e; cbn [List.app pipe_text]; rewrite ?IH; try reflexivity.
  now rewrite append_assoc.
Qed.

Lemma opened_app (t u : list Event) : opened (t ++ u) = (opened t ++ opened u)%list.
Proof.
  induction t as [|e t IH]; [reflexivity|].
  destruct e; cbn [List.app opened]; rewrite ?IH; reflexivity.
Qed.

Lemma closed_app (t u : list Event) : closed (t ++ u) = (closed t ++ closed u)%list.
Proof.
  induction t as [|e t IH]; [reflexivity|].
  destruct e; cbn [List.app closed]; rewrite ?IH; reflexivity.
Qed.

Lemma evaluations_app (t u : list Event) :
  evaluations (t ++ u) = (evaluations t ++ evaluations u)%list.
Proof.
  induction t as [|e t IH]; [reflexivity|].
  destruct e; cbn [List.app evaluations]; rewrite ?IH; reflexivity.
Qed.

Lemma evaluations_In (t : list Event) (st : State) (ev : Evaluation) :
  In (EvEvaluate st ev) t <-> In (st, ev) (evaluations t).
Proof.
  induction t as [|e t IH]; [reflexivity|].
  destruct e; cbn [In evaluations]; rewrite IH;
    (split; [intros [H|H]; [discriminate H || (injection H as -> ->; now left) | auto]
            | try (intros [H|H]; [injection H as -> ->; now left | now right]); auto]).
Qed.

(** Writing opens, closes and evaluates nothing. *)
Lemma talks_quiet (t : list Event) :
  Forall talks t -> opened t = [] /\ closed t = [] /\ evaluations t = [].
Proof.
  induction 1 as [|e t He _ IH]; [now auto|].
  destruct e; cbn in He; try contradiction; exact IH.
Qed.

Lemma wire_app (a b : list string) : wire (a ++ b) = wire a ++ wire b.
Proof.
  unfold wire. induction a as [|l a IH]; [reflexivity|].
  cbn [List.app fold_right]. rewrite IH. now rewrite !append_assoc.
Qed.

Lemma lines_of_wire (ls : list string) :
  Forall (fun l => mem_char LF l = false) ls -> lines_of (wire ls) = ls.
Proof. exact (lines_of_concat ls). Qed.

End Computations.

(** ** The report of an aborted script *)

Section Report.

Variable K : ErrorCodes.
Variable f : FILE.

(** One line: the context that results, and the one [ui_print] command. *)
Lemma scan_line_spec (state : State) (line : string) :
  snd (scan_line (Some f) state line) = inl (after_line state line)
  /\ pipe_text (fst (scan_line (Some f) state line))
     = ("ui_print " ++ c_str line) ++ newline.
Proof.
  unfold scan_line, after_line, stored_code.
  destruct (negb (String.eqb line EmptyString) && Ascii.eqb (char_at line 0) "E").
  - destruct (sscanf_E_d line) as [n stored].
    destruct (negb (n =? 1)); cbn; rewrite ?append_empty_r; auto.
  - cbn. rewrite ?append_empty_r. auto.
Qed.

(** The loop: every line is looked at, in order, and every line is sent. *)
Lemma scan_lines_spec (lines : list string) (state : State) :
  snd (scan_lines (Some f) state lines) = inl (fold_left after_line lines state)
  /\ pipe_text (fst (scan_lines (Some f) state lines))
     = wire (map (fun l => "ui_print " ++ c_str l) lines).
Proof.
  revert state. induction lines as [|line rest IH]; intros state.
  - split; reflexivity.
  - cbn [scan_lines fold_left map].
    destruct (scan_line_spec state line) as [Hs Ht].
    rewrite (bind_inl _ _ _ Hs). cbn [fst snd].
    destruct (IH (after_line state line)) as [Hs' Ht'].
    split; [exact Hs'|].
    rewrite pipe_text_app, Ht, Ht'. unfold wire. cbn [fold_right].
    now rewrite append_assoc.
Qed.

Lemma cause_code_fold (lines : list string) (state : State) :
  cause_code (fold_left after_line lines state) = cause_code state.
Proof.
  revert state. induction lines as [|l r IH]; intros state; [reflexivity|].
  cbn [fold_left]. rewrite IH. unfold after_line.
  now destruct (stored_code l).
Qed.

Lemma cause_code_classified (state : State) :
  cause_code (classified K state) = cause_code state.
Proof.
  unfold classified, scanned.
  destruct (String.eqb (errmsg state) EmptyString);
    destruct (_ =? kNoError K); cbn [set_error_code cause_code];
    rewrite ?cause_code_fold; reflexivity.
Qed.

(** The whole report: the context it ends with and the bytes it sends. *)
Lemma report_abort_text (state : State) :
  snd (report_abort K (Some f) state) = inl (classified K state)
  /\ pipe_text (fst (report_abort K (Some f) state))
     = wire (message_lines state
             ++ ("log error: " ++ show_int (error_code (classified K state)))
                :: cause_lines K (cause_code state)).
Proof.
  unfold report_abort.
  set (m1 := if String.eqb (errmsg state) EmptyString then _ else _).
  assert (H1 : snd m1 = inl (scanned state)
               /\ pipe_text (fst m1) = wire (message_lines state)).
  { unfold m1, scanned, message_lines.
    destruct (String.eqb (errmsg state) EmptyString).
    - split; reflexivity.
    - destruct (scan_lines_spec (Split (errmsg state) newline) state) as [Hs Ht].
      cbn [LOG emit bind].
      destruct (scan_lines (Some f) state (Split (errmsg state) newline)) as [t r].
      cbn [fst snd] in *. auto. }
  destruct H1 as [Hs Ht].
  rewrite (bind_inl _ _ _ Hs). cbn [fst snd].
  fold (classified K state).
  rewrite <- (cause_code_classified state).
  set (st2 := classified K state).
  unfold cause_lines.
  rewrite pipe_text_app, Ht, wire_app.
  destruct (cause_code st2 =? kNoCause K);
    [|destruct (cause_code st2 =? kPatchApplicationFailure K);
      [|destruct (cause_code st2 =? kEioFailure K)]];
    (split; [reflexivity|]); f_equal;
    cbn -[show_int]; rewrite ?append_assoc, ?append_empty_r; reflexivity.
Qed.

Lemma message_lines_no_newline (state : State) :
  Forall (fun l => mem_char LF l = false) (message_lines state).
Proof.
  unfold message_lines. destruct (String.eqb (errmsg state) EmptyString).
  - constructor; [reflexivity | constructor].
  - apply Forall_map.
    eapply Forall_impl; [|apply (Split_pieces (errmsg state) newline LF eq_refl)].
    intros l Hl. rewrite mem_char_append, (c_str_keeps_out _ _ Hl). reflexivity.
Qed.

Lemma cause_lines_no_newline (cause : Z) :
  Forall (fun l => mem_char LF l = false) (cause_lines K cause).
Proof.
  unfold cause_lines. destruct (cause =? kNoCause K); [constructor|].
  constructor.
  - rewrite mem_char_append, show_int_no_newline. reflexivity.
  - destruct (_ || _); repeat constructor.
Qed.

(** The lines the parent reads for an aborted script: the message, the
    error code, and what the cause code asks for. *)
Lemma report_abort_lines (state : State) :
  pipe_lines (fst (report_abort K (Some f) state))
  = (message_lines state
     ++ ("log error: " ++ show_int (error_code (classified K state)))%string
        :: cause_lines K (cause_code state))%list.
Proof.
  unfold pipe_lines. rewrite (proj2 (report_abort_text state)).
  apply lines_of_wire. apply Forall_app. split.
  - apply message_lines_no_newline.
  - constructor.
    + rewrite mem_char_append, show_int_no_newline. reflexivity.
    + apply cause_lines_no_newline.
Qed.

Lemma ui_print_cause_lines (cause : Z) :
  filter is_ui_print (cause_lines K cause) = [].
Proof.
  unfold cause_lines. destruct (cause =? kNoCause K); [reflexivity|].
  destruct (_ || _); reflexivity.
Qed.

Lemma ui_print_message_lines (state : State) :
  filter is_ui_print (message_lines state) = message_lines state.
Proof.
  unfold message_lines. destruct (String.eqb (errmsg state) EmptyString);
    [reflexivity|].
  induction (Split (errmsg state) newline) as [|l r IH]; [reflexivity|].
  cbn [map filter]. rewrite IH.
  change (is_ui_print ("ui_print " ++ c_str l)) with true. reflexivity.
Qed.

(** The [ui_print] commands of a report are the message lines. *)
Lemma report_abort_ui_print (state : State) :
  ui_print_lines (fst (report_abort K (Some f) state)) = message_lines state.
Proof.
  unfold ui_print_lines. rewrite report_abort_lines, filter_app.
  cbn [filter]. rewrite ui_print_cause_lines, ui_print_message_lines.
  change (is_ui_print ("log error: " ++ show_int (error_code (classified K state))))
    with false.
  apply app_nil_r.
Qed.

End Report.

(** ** The error code and the lines of an abort message *)

Section AbortMessage.

Lemma final_error_code_classified (K : ErrorCodes) (f : FILE) (state : State) :
  final_error_code K (Some f) state = Some (error_code (classified K state)).
Proof.
  unfold final_error_code. now rewrite (proj1 (report_abort_text K f state)).
Qed.

Lemma error_code_after_fold (f : FILE) (state : State) (lines : list string) :
  error_code_after (Some f) state lines
  = Some (error_code (fold_left after_line lines state)).
Proof.
  unfold error_code_after. now rewrite (proj1 (scan_lines_spec f lines state)).
Qed.

Lemma stored_code_E (tail : string) :
  stored_code (String "E" tail) = snd (sscanf_E_d (String "E" tail)).
Proof. reflexivity. Qed.

(** When [sscanf] does not return 1 it has stored nothing. *)
Lemma sscanf_not_1 (line : string) :
  fst (sscanf_E_d line) <> 1 -> snd (sscanf_E_d line) = None.
Proof.
  unfold sscanf_E_d. destruct (c_str line) as [|c r]; [reflexivity|].
  destruct (Ascii.eqb c "E"); [|reflexivity].
  destruct (scan_d r); cbn [fst snd]; congruence.
Qed.

Lemma stored_code_none (line : string) :
  fst (sscanf_E_d line) <> 1 -> stored_code line = None.
Proof.
  intros H. unfold stored_code.
  destruct (_ && _); [now apply sscanf_not_1 | reflexivity].
Qed.

Lemma stored_code_digits (line ds rest : string) :
  matches_E_digits line ds rest ->
  INT_MIN <= decimal_value ds <= INT_MAX ->
  stored_code line = Some (decimal_value ds).
Proof.
  intros Hm Hr. pose proof (sscanf_E_digits _ _ _ Hm) as Hs.
  destruct Hm as (-> & _ & _).
  change (stored_code ("E" ++ ds ++ ": " ++ rest))
    with (snd (sscanf_E_d ("E" ++ ds ++ ": " ++ rest))).
  rewrite Hs. cbn [snd]. now rewrite (to_int_representable _ Hr).
Qed.

Lemma fold_left_unchanged (post : list string) (state : State) :
  Forall (fun l => fst (sscanf_E_d l) <> 1) post ->
  fold_left after_line post state = state.
Proof.
  intros H. revert state. induction H as [|l post Hl _ IH]; intros state.
  - reflexivity.
  - cbn [fold_left]. unfold after_line at 2.
    rewrite (stored_code_none _ Hl). apply IH.
Qed.

End AbortMessage.






(** C5 (amended).  In the loop over the lines of an abort message: a line
    [E<digits>: ...] whose number fits an [int] sets the error code to that
    number, whatever it was before; so does every line that starts with [E]
    and goes on with a number ([%d]: white space and a sign may come first,
    the colon need not follow); a line that starts with [E] on which
    [sscanf] converts nothing leaves the error code as it is and the loop
    goes on with the next line; and the last line that sets the code
    decides the code the loop ends with. *)
Theorem abort_lines_set_error_code (f : FILE) (state : State) :
  (forall line ds rest,
      matches_E_digits line ds rest ->
      INT_MIN <= decimal_value ds <= INT_MAX ->
      error_code_after (Some f) state [line] = Some (decimal_value ds))
  /\ (forall tail v,
         scan_d (c_str tail) = Converted v ->
         error_code_after (Some f) state [String "E" tail] = Some (to_int v))
  /\ (forall line rest,
         char_at line 0 = "E"%char ->
         fst (sscanf_E_d line) <> 1 ->
         error_code_after (Some f) state (line :: rest)
         = error_code_after (Some f) state rest)
  /\ (forall pre line ds rest post,
         matches_E_digits line ds rest ->
         INT_MIN <= decimal_value ds <= INT_MAX ->
         Forall (fun l => fst (sscanf_E_d l) <> 1) post ->
         error_code_after (Some f) state (pre ++ line :: post)
         = Some (decimal_value ds)).
Proof.
  repeat split.
  - intros line ds rest Hm Hr. rewrite error_code_after_fold.
    cbn [fold_left]. unfold after_line.
    now rewrite (stored_code_digits _ _ _ Hm Hr).
  - intros tail v Hv. rewrite error_code_after_fold.
    cbn [fold_left]. unfold after_line. rewrite stored_code_E.
    unfold sscanf_E_d. cbn [c_str Ascii.eqb Bool.eqb NUL].
    now rewrite Hv.
  - intros line rest _ Hn. rewrite !error_code_after_fold.
    cbn [fold_left]. unfold after_line at 2.
    now rewrite (stored_code_none _ Hn).
  - intros pre line ds rest post Hm Hr Hpost. rewrite error_code_after_fold.
    rewrite fold_left_app. cbn [fold_left].
    rewrite (fold_left_unchanged _ _ Hpost). unfold after_line at 1.
    now rewrite (stored_code_digits _ _ _ Hm Hr).
Qed.

Lemma abort_lines_set_error_code_witness :
  error_code_after (Some 3) (aborted EmptyString 7 (-1)) ["E30: unsupported device"] = Some 30
  /\ error_code_after (Some 3) (aborted EmptyString 7 (-1)) ["E -12 volts"] = Some (-12)
  /\ error_code_after (Some 3) (aborted EmptyString 7 (-1)) ["Error: E30"; "E41: late"]
     = error_code_after (Some 3) (aborted EmptyString 7 (-1)) ["E41: late"]
  /\ error_code_after (Some 3) (aborted EmptyString 7 (-1))
       ["E30: unsupported device"; "E40: second"; "Eh?"; "done"] = Some 40.
Proof.
  destruct (abort_lines_set_error_code 3 (aborted EmptyString 7 (-1))) as (H1 & H2 & H3 & H4).
  split; [|split; [|split]].
  - apply (H1 "E30: unsupported device" "30" "unsupported device").
    + split; [reflexivity | split; [discriminate | reflexivity]].
    + vm_compute. split; discriminate.
  - apply (H2 " -12 volts" (-12)). reflexivity.
  - apply (H3 "Error: E30" ["E41: late"]); [reflexivity | vm_compute; discriminate].
  - apply (H4 ["E30: unsupported device"] "E40: second" "40" "second" ["Eh?"; "done"]).
    + split; [reflexivity | split; [discriminate | reflexivity]].
    + vm_compute. split; discriminate.
    + repeat constructor; vm_compute; discriminate.
Defined.

(** C5, as it was stated: the line "E30 unsupported device" starts with [E]
    and is not of the form [E<digits>: ], and yet it changes the error code,
    from -1 to 30. *)
Lemma E_line_without_colon_sets_code :
  char_at "E30 unsupported device" 0 = "E"%char
  /\ (forall ds rest, ~ matches_E_digits "E30 unsupported device" ds rest)
  /\ error_code (aborted "E30 unsupported device" (-1) (-1)) = -1
  /\ error_code_after (Some 3) (aborted "E30 unsupported device" (-1) (-1))
                      ["E30 unsupported device"] = Some 30.
Proof.
  split; [reflexivity|]. split; [|split; reflexivity].
  intros ds rest (Heq & Hne & Hds).
  destruct ds as [|a [|b [|c ds]]]; cbn in Heq; try congruence.
  injection Heq as Ha Hb Hc _. subst. discriminate Hds.
Qed.






(** ** The runs of [main] *)

Section Runs.

Variable K : ErrorCodes.
Variable W : World.

Lemma evaluate_script_spec argv f map za text root :
  evaluate_script K W argv (Some f) map za text root
  = ((no_contexts_warning W f ++ retry_note argv
      ++ EvEvaluate (context K argv f map za text)
                    (Evaluate W (context K argv f map za text) root)
         :: script_output f (Evaluate W (context K argv f map za text) root))%list,
     inl (Evaluate W (context K argv f map za text) root)).
Proof.
  unfold evaluate_script, no_contexts_warning, retry_note, script_output, context,
    retry_requested.
  destruct (selinux_android_file_context_handle W =? 0);
    destruct (Z.of_nat (List.length argv) =? 5);
    destruct (strcmp (arg argv 4) "retry" =? 0);
    cbv beta iota delta [State_init set_is_retry script cookie errmsg is_retry
                         error_code cause_code andb negb];
    cbn [bind ret when fprintf emit printf];
    match goal with
    | |- context [Evaluate W ?st root] => generalize (Evaluate W st root); intros ev
    end;
    destruct (String.eqb (pipe_output ev) EmptyString);
    reflexivity.
Qed.

Lemma main_run argv : Run K W argv (fst (main K W argv)) (snd (main K W argv)).
Proof.
  unfold main, main_body, check_args. cbv zeta.
  destruct (negb (Z.of_nat (List.length argv) =? 4)
            && negb (Z.of_nat (List.length argv) =? 5)) eqn:Hc.
  { step. apply andb_true_iff in Hc. destruct Hc as [H4 H5].
    apply negb_true_iff, Z.eqb_neq in H4. apply negb_true_iff, Z.eqb_neq in H5.
    apply run_bad_count; lia. }
  assert (Hlen : List.length argv = 4%nat \/ List.length argv = 5%nat).
  { apply andb_false_iff in Hc.
    destruct Hc as [H|H]; apply negb_false_iff, Z.eqb_eq in H; lia. }
  step.
  match goal with
  | |- context [when ?b _] => destruct b eqn:Hv
  end.
  { step. apply run_bad_version; [exact Hlen|].
    intros Hok. apply version_check in Hok. congruence. }
  assert (Hargs : args_ok argv).
  { split; [exact Hlen|]. apply version_check. exact Hv. }
  step.
  unfold open_cmd_pipe. step.
  destruct (fdopen W (atoi (arg argv 2))) as [f|] eqn:Hf; step.
  2: { now apply run_no_pipe. }
  unfold extract_script. step.
  destruct (MapFile W (c_str (arg argv 3))) as [map|] eqn:Hmap; step.
  2: { now apply (run_no_map K W argv f). }
  destruct (OpenArchiveFromMemory W _ _ _) as [open_err za] eqn:Hopen. step.
  destruct (Z.eqb_spec open_err 0) as [->|Ho]; cbn [negb]; step.
  2: { now apply (run_no_archive K W argv f). }
  destruct (FindEntry W za SCRIPT_NAME) as [find_err entry] eqn:Hfind. step.
  destruct (Z.eqb_spec find_err 0) as [->|Hfe]; cbn [negb]; step.
  2: { now apply (run_no_script K W argv f). }
  destruct (ExtractToMemory W za entry) as [extract_err text] eqn:Hext. step.
  destruct (Z.eqb_spec extract_err 0) as [->|Hee]; cbn [negb]; step.
  2: { now apply (run_no_extract K W argv f). }
  unfold parse_script. step.
  destruct (ParseString W text) as [[error error_count] root] eqn:Hparse. step.
  destruct (Z.eqb_spec error 0) as [->|Hpe]; cbn [negb orb]; step.
  2: { now apply (run_no_parse K W argv f). }
  destruct (Z.ltb_spec 0 error_count) as [Hcount|Hcount]; step.
  { now apply (run_no_parse K W argv f). }
  assert (HL : Loaded W argv f map za text root).
  { constructor; eauto. }
  rewrite evaluate_script_spec. step.
  set (ev := Evaluate W (context K argv f map za text) root).
  destruct (status ev) eqn:Hst; cbn [negb].
  - step.
    pose proof (run_succeeded K W argv f map za text root ev HL eq_refl Hst) as R.
    unfold before_report, close_if, registrations in R.
    destruct (package_zip (info_after ev) =? 0); cbn [negb]; step;
      cbn [List.app] in R; rewrite <- ?app_assoc, <- ?app_comm_cons in *;
      exact R.
  - rewrite (bind_inl _ _ _ (proj1 (report_abort_text K f (state_after ev)))).
    step.
    pose proof (run_aborted K W argv f map za text root ev HL eq_refl Hst) as R.
    unfold before_report, close_if, registrations in R.
    destruct (package_zip (info_after ev) =? 0); cbn [negb]; step;
      cbn [List.app] in R; rewrite <- ?app_assoc, <- ?app_comm_cons in *;
      rewrite ?app_nil_r in *; exact R.
Qed.

End Runs.

(** ** What the parts of a run open, close and write *)

Section Parts.

Variable K : ErrorCodes.
Variable W : World.

Lemma scan_line_talks (f : FILE) (state : State) (line : string) :
  Forall talks (fst (scan_line (Some f) state line)).
Proof.
  unfold scan_line.
  destruct (negb (String.eqb line EmptyString) && Ascii.eqb (char_at line 0) "E").
  - destruct (sscanf_E_d line) as [n stored].
    destruct (negb (n =? 1)); step; repeat constructor.
  - step. repeat constructor.
Qed.

Lemma scan_lines_talks (f : FILE) (lines : list string) (state : State) :
  Forall talks (fst (scan_lines (Some f) state lines)).
Proof.
  revert state. induction lines as [|line rest IH]; intros state.
  - constructor.
  - cbn [scan_lines].
    rewrite (bind_inl _ _ _ (proj1 (scan_line_spec f state line))). cbn [fst].
    apply Forall_app. split; [apply scan_line_talks | apply IH].
Qed.

(** The report of an aborted script writes and does nothing else. *)
Lemma report_abort_talks (f : FILE) (state : State) :
  Forall talks (fst (report_abort K (Some f) state)).
Proof.
  unfold report_abort.
  set (m1 := if String.eqb (errmsg state) EmptyString then _ else _).
  assert (H1 : (exists s, snd m1 = inl s) /\ Forall talks (fst m1)).
  { unfold m1. destruct (String.eqb (errmsg state) EmptyString).
    - split; [now exists state | repeat constructor].
    - pose proof (proj1 (scan_lines_spec f (Split (errmsg state) newline) state)) as Hs.
      pose proof (scan_lines_talks f (Split (errmsg state) newline) state) as Ht.
      cbn [LOG emit bind].
      destruct (scan_lines (Some f) state (Split (errmsg state) newline)) as [t r].
      cbn [fst snd] in *. split; [eauto | now constructor]. }
  destruct H1 as [[s Hs] Ht].
  rewrite (bind_inl _ _ _ Hs). cbn [fst].
  apply Forall_app. split; [exact Ht|].
  set (st2 := if error_code s =? kNoError K then _ else s).
  destruct (cause_code st2 =? kNoCause K);
    [|destruct (cause_code st2 =? kPatchApplicationFailure K);
      [|destruct (cause_code st2 =? kEioFailure K)]];
    cbn [negb]; step; repeat constructor.
Qed.

Lemma before_report_opened argv f map za text ev :
  opened (before_report K W argv f map za text ev) = [za].
Proof.
  unfold before_report, registrations, no_contexts_warning, retry_note, script_output.
  destruct (_ =? 0); destruct (_ && _); destruct (String.eqb _ _); reflexivity.
Qed.

Lemma before_report_closed argv f map za text ev :
  closed (before_report K W argv f map za text ev) = [].
Proof.
  unfold before_report, registrations, no_contexts_warning, retry_note, script_output.
  destruct (_ =? 0); destruct (_ && _); destruct (String.eqb _ _); reflexivity.
Qed.

Lemma before_report_evaluations argv f map za text ev :
  evaluations (before_report K W argv f map za text ev)
  = [(context K argv f map za text, ev)].
Proof.
  unfold before_report, registrations, no_contexts_warning, retry_note, script_output.
  destruct (_ =? 0); destruct (_ && _); destruct (String.eqb _ _); reflexivity.
Qed.


Lemma close_if_quiet (h : ZipArchiveHandle) : evaluations (close_if h) = [].
Proof. unfold close_if. now destruct (h =? 0). Qed.




(** A run that returns 7 is a run whose script aborted: it ends with the
    report of the abort and the closing of the archive. *)
Lemma aborted_run (argv : list string) :
  snd (main K W argv) = Exit 7 ->
  exists f map za text ev,
    status ev = false
    /\ fst (main K W argv)
       = (before_report K W argv f map za text ev
          ++ fst (report_abort K (Some f) (state_after ev))
          ++ close_if (package_zip (info_after ev)))%list.
Proof.
  pose proof (main_run K W argv) as R.
  destruct (main K W argv) as [t o]. cbn [fst snd] in *.
  intros ->. inversion R; subst. eauto 10.
Qed.

(** X16.  When [fdopen] fails, for whatever descriptor, [main] goes on to
    use the null stream in [setlinebuf]: it returns no exit code, and it has
    written nothing on the pipe and touched no package. *)
Lemma null_pipe_faults (argv : list string) :
  args_ok argv ->
  fdopen W (atoi (arg argv 2)) = None ->
  main K W argv = ([EvFdopen (atoi (arg argv 2))], Fault).
Proof.
  intros Hargs Hf.
  pose proof (main_run K W argv) as R.
  destruct (main K W argv) as [t o]. cbn [fst snd] in *.
  inversion R; subst;
    try match goal with
        | H : Loaded _ _ _ _ _ _ _ |- _ =>
            pose proof (loaded_pipe _ _ _ _ _ _ _ H)
        end;
    unfold args_ok in *; try congruence; try (exfalso; tauto).
Qed.

End Parts.

(** ** Arguments and the command pipe *)

(** C8.  With an argument count other than 4 and 5, [main] returns 1 having
    done nothing but print a diagnostic on stdout: no pipe, no package, no
    archive.  With 4 or 5 arguments of which the first, as a C string, is
    not one of "1", "2", "3" (so also for "10"), it returns 2, again after a
    diagnostic only. *)
Theorem bad_arguments_exit_early (K : ErrorCodes) (W : World) (argv : list string) :
  (List.length argv <> 4%nat -> List.length argv <> 5%nat ->
   snd (main K W argv) = Exit 1 /\ only_stdout (fst (main K W argv)))
  /\ (List.length argv = 4%nat \/ List.length argv = 5%nat ->
      ~ (c_str (arg argv 1) = "1" \/ c_str (arg argv 1) = "2" \/ c_str (arg argv 1) = "3") ->
      snd (main K W argv) = Exit 2 /\ only_stdout (fst (main K W argv))).
Proof.
  pose proof (main_run K W argv) as R.
  destruct (main K W argv) as [t o]. cbn [fst snd] in *.
  split.
  - intros H4 H5.
    inversion R; subst;
      try match goal with
          | H : Loaded _ _ _ _ _ _ _ |- _ => apply loaded_args in H
          end;
      unfold args_ok in *;
      try (exfalso; tauto);
      split; [reflexivity | eexists; reflexivity].
  - intros Hlen Hv.
    inversion R; subst;
      try match goal with
          | H : Loaded _ _ _ _ _ _ _ |- _ => apply loaded_args in H
          end;
      unfold args_ok in *;
      try (exfalso; tauto);
      split; [reflexivity | eexists; reflexivity].
Qed.

Lemma bad_arguments_exit_early_witness :
  (snd (main sample_codes (sample_world 0 0 0 1 true "OK" EmptyString (-1))
             ["updater"; "3"; "3"]) = Exit 1
   /\ only_stdout (fst (main sample_codes (sample_world 0 0 0 1 true "OK" EmptyString (-1))
                             ["updater"; "3"; "3"])))
  /\ (snd (main sample_codes (sample_world 0 0 0 1 true "OK" EmptyString (-1))
                ["updater"; "10"; "3"; "/tmp/update.zip"]) = Exit 2
      /\ only_stdout (fst (main sample_codes (sample_world 0 0 0 1 true "OK" EmptyString (-1))
                                ["updater"; "10"; "3"; "/tmp/update.zip"]))).
Proof.
  split.
  - apply (bad_arguments_exit_early sample_codes (sample_world 0 0 0 1 true "OK" EmptyString (-1))
             ["updater"; "3"; "3"]); simpl; lia.
  - apply (bad_arguments_exit_early sample_codes (sample_world 0 0 0 1 true "OK" EmptyString (-1))
             ["updater"; "10"; "3"; "/tmp/update.zip"]).
    + left. reflexivity.
    + simpl. intros [H|[H|H]]; discriminate H.
Defined.

(** C3.  A descriptor that cannot be opened: [fdopen] returns a null stream,
    there is no check, and the next call on the stream, [setlinebuf], has no
    defined behaviour.  [main] returns no exit code of its own there. *)
Theorem closed_descriptor_is_not_checked :
  main sample_codes (sample_world 0 0 0 1 true "OK" EmptyString (-1))
       ["updater"; "3"; "4"; "/tmp/update.zip"]
  = ([EvFdopen 4], Fault).
Proof. reflexivity. Qed.

(** ** The archive handle *)




(** ** A script that succeeds *)




(** ** The fifth argument *)

Section FifthArgument.

Variable K : ErrorCodes.
Variable W : World.

Lemma differ_by_refl {A : Type} (e : Event) (m : M A) : differ_by e m m.
Proof. split; [reflexivity | now left]. Qed.

(** The same start, continuations that differ by [e]. *)
Lemma differ_by_bind_k {A B : Type} (e : Event) (m : M A) (k5 k4 : A -> M B) :
  (forall a, differ_by e (k5 a) (k4 a)) -> differ_by e (bind m k5) (bind m k4).
Proof.
  intros Hk. destruct m as [t [a|o]]; cbn [bind]; [|apply differ_by_refl].
  destruct (Hk a) as [Hs Ht].
  destruct (k5 a) as [t5 r5]. destruct (k4 a) as [t4 r4]. cbn [fst snd] in *.
  split; [exact Hs|]. destruct Ht as [->|(pre & post & -> & ->)].
  - now left.
  - right. exists (t ++ pre)%list, post. now rewrite !app_assoc.
Qed.

(** Starts that differ by [e], the same continuation. *)
Lemma differ_by_bind_m {A B : Type} (e : Event) (m5 m4 : M A) (k : A -> M B) :
  differ_by e m5 m4 -> differ_by e (bind m5 k) (bind m4 k).
Proof.
  intros [Hs Ht]. destruct m5 as [t5 r5]. destruct m4 as [t4 r4].
  cbn [fst snd] in *. subst r5.
  destruct r4 as [a|o]; cbn [bind].
  - destruct (k a) as [t r]. cbn [fst snd]. split; [reflexivity|].
    destruct Ht as [->|(pre & post & -> & ->)].
    + now left.
    + right. exists pre, (post ++ t)%list.
      now rewrite <- !app_assoc, <- app_comm_cons.
  - split; [reflexivity | exact Ht].
Qed.

(** With a fifth argument other than "retry", the evaluation is the one
    of four arguments, after a note on stdout. *)
Lemma evaluate_script_fifth a0 v fd pkg x cmd_pipe map za text root :
  c_str x <> "retry" ->
  differ_by (EvStdout ("unexpected argument: " ++ c_str x))
    (evaluate_script K W [a0; v; fd; pkg; x] cmd_pipe map za text root)
    (evaluate_script K W [a0; v; fd; pkg] cmd_pipe map za text root).
Proof.
  intros Hx.
  assert (Hcmp : (strcmp x "retry" =? 0) = false).
  { apply Z.eqb_neq. intros H. apply strcmp_zero in H. now apply Hx. }
  unfold evaluate_script, arg.
  cbn [List.length Z.of_nat Pos.of_succ_nat Pos.succ Z.eqb Pos.eqb nth].
  rewrite Hcmp.
  destruct cmd_pipe as [f|];
    destruct (selinux_android_file_context_handle W =? 0);
    cbn [negb]; step.
  all: try (split; [reflexivity | now left]).
  all: match goal with
    | |- context [Evaluate W ?s ?r] => set (ev := Evaluate W s r)
    end.
  all: destruct (String.eqb (pipe_output ev) EmptyString);
    cbn [negb]; step.
  all: (split; [reflexivity|]); cbn [fst snd].
  all: try (now left).
  all: right;
    match goal with
    | |- exists pre post, ?t4 = _ /\ _ =>
        first [ now (exists [], t4)
              | match t4 with
                | ?h :: ?r => now (exists [h], r)
                end ]
    end.
Qed.

Lemma main_body_fifth a0 v fd pkg x :
  c_str x <> "retry" ->
  differ_by (EvStdout ("unexpected argument: " ++ c_str x))
    (main_body K W [a0; v; fd; pkg; x]) (main_body K W [a0; v; fd; pkg]).
Proof.
  intros Hx. unfold main_body.
  change (check_args [a0; v; fd; pkg; x]) with (check_args [a0; v; fd; pkg]).
  apply differ_by_bind_k. intros _.
  change (open_cmd_pipe W [a0; v; fd; pkg; x]) with (open_cmd_pipe W [a0; v; fd; pkg]).
  apply differ_by_bind_k. intros cmd_pipe.
  change (extract_script W [a0; v; fd; pkg; x]) with (extract_script W [a0; v; fd; pkg]).
  apply differ_by_bind_k. intros [[map za] text].
  apply differ_by_bind_k. intros root.
  apply differ_by_bind_m. now apply evaluate_script_fifth.
Qed.

Lemma differ_by_stdout {A : Type} (text : string) (m5 m4 : M A) :
  differ_by (EvStdout text) m5 m4 ->
  evaluations (fst m5) = evaluations (fst m4) /\ pipe_text (fst m5) = pipe_text (fst m4).
Proof.
  intros [_ [->|(pre & post & -> & ->)]]; [now split|].
  now rewrite !evaluations_app, !pipe_text_app.
Qed.

End FifthArgument.

(** C9.  A fifth argument other than "retry" changes nothing but stdout: the
    run ends as the run with four arguments does; its events are those of
    that run with at most one more, the note [unexpected argument: ...] on
    stdout; [Evaluate] is given the same context, retry flag off, and hands
    back the same; and the command pipe carries the same bytes. *)
Theorem unexpected_fifth_argument (K : ErrorCodes) (W : World)
    (a0 v fd pkg x : string) :
  c_str x <> "retry" ->
  snd (main K W [a0; v; fd; pkg; x]) = snd (main K W [a0; v; fd; pkg])
  /\ (fst (main K W [a0; v; fd; pkg; x]) = fst (main K W [a0; v; fd; pkg])
      \/ exists pre post,
          fst (main K W [a0; v; fd; pkg]) = (pre ++ post)%list
          /\ fst (main K W [a0; v; fd; pkg; x])
             = (pre ++ EvStdout ("unexpected argument: " ++ c_str x) :: post)%list)
  /\ evaluations (fst (main K W [a0; v; fd; pkg; x]))
     = evaluations (fst (main K W [a0; v; fd; pkg]))
  /\ pipe_text (fst (main K W [a0; v; fd; pkg; x]))
     = pipe_text (fst (main K W [a0; v; fd; pkg]))
  /\ Forall (fun call => is_retry (fst call) = false)
            (evaluations (fst (main K W [a0; v; fd; pkg; x]))).
Proof.
  intros Hx.
  pose proof (main_body_fifth K W a0 v fd pkg x Hx) as D.
  pose proof (differ_by_stdout _ _ _ D) as [He Hp].
  assert (H4 : Forall (fun call => is_retry (fst call) = false)
                      (evaluations (fst (main K W [a0; v; fd; pkg])))).
  { pose proof (main_run K W [a0; v; fd; pkg]) as R.
    destruct (main K W [a0; v; fd; pkg]) as [t o]. cbn [fst snd] in R |- *.
    destruct R; try (cbn; now constructor).
    - destruct (talks_quiet _ (report_abort_talks K f (state_after ev))) as (_ & _ & E).
      rewrite !evaluations_app, before_report_evaluations, E, close_if_quiet.
      repeat constructor.
    - rewrite evaluations_app, before_report_evaluations. cbn [evaluations List.app].
      rewrite close_if_quiet. repeat constructor. }
  destruct D as [Ds Dt]. unfold main in *.
  destruct (main_body K W [a0; v; fd; pkg; x]) as [t5 r5].
  destruct (main_body K W [a0; v; fd; pkg]) as [t4 r4].
  cbn [fst snd] in *. subst r5. rewrite He.
  repeat split; auto.
Qed.

Lemma unexpected_fifth_argument_witness :
  snd (main sample_codes (sample_world 0 0 0 1 true "OK" EmptyString (-1))
            ["updater"; "3"; "3"; "/tmp/update.zip"; "again"])
  = snd (main sample_codes (sample_world 0 0 0 1 true "OK" EmptyString (-1))
              ["updater"; "3"; "3"; "/tmp/update.zip"])
  /\ pipe_text (fst (main sample_codes (sample_world 0 0 0 1 true "OK" EmptyString (-1))
                          ["updater"; "3"; "3"; "/tmp/update.zip"; "again"]))
     = pipe_text (fst (main sample_codes (sample_world 0 0 0 1 true "OK" EmptyString (-1))
                            ["updater"; "3"; "3"; "/tmp/update.zip"])).
Proof.
  destruct (unexpected_fifth_argument sample_codes (sample_world 0 0 0 1 true "OK" EmptyString (-1))
              "updater" "3" "3" "/tmp/update.zip" "again")
    as (H1 & _ & _ & H2 & _).
  - discriminate.
  - split; [exact H1 | exact H2].
Defined.

(* ================================================================== *)
(** * Further properties of [main] *)

(** ** Exit codes *)

(** X1.  [main] returns 1 exactly when the argument count is neither 4 nor
    5, and 2 exactly when the count is 4 or 5 and the first argument, as a C
    string, is not "1", "2" or "3". *)
Theorem exit_1_and_2 (K : ErrorCodes) (W : World) (argv : list string) :
  (snd (main K W argv) = Exit 1
   <-> (List.length argv <> 4%nat /\ List.length argv <> 5%nat))
  /\ (snd (main K W argv) = Exit 2
      <-> ((List.length argv = 4%nat \/ List.length argv = 5%nat) /\ ~ version_ok argv)).
Proof.
  pose proof (main_run K W argv) as R.
  destruct (main K W argv) as [t o]. cbn [fst snd] in *. unfold version_ok.
  split; split; intros H;
    inversion R; subst;
      try match goal with
          | L : Loaded _ _ _ _ _ _ _ |- _ => apply loaded_args in L
          end;
      unfold args_ok in *;
      try discriminate; try reflexivity; try tauto; try (exfalso; tauto).
Qed.

(** X2.  [Evaluate] is called at most once in a run, and the exit code
    tells how it went: a run in which it returned true ends with 0, a run in
    which it returned false ends with 7, and a run that ends with 0 or 7 has
    called it. *)
Theorem evaluate_at_most_once (K : ErrorCodes) (W : World) (argv : list string) :
  (List.length (evaluations (fst (main K W argv))) <= 1)%nat
  /\ (forall st ev, In (EvEvaluate st ev) (fst (main K W argv)) ->
                    snd (main K W argv) = Exit (if status ev then 0 else 7))
  /\ (snd (main K W argv) = Exit 0 \/ snd (main K W argv) = Exit 7 ->
      exists st ev, evaluations (fst (main K W argv)) = [(st, ev)]).
Proof.
  pose proof (main_run K W argv) as R.
  destruct (main K W argv) as [t o]. cbn [fst snd] in *.
  destruct R as [ text H4 H5 | text Hlen Hv | Hargs Hf | f text Hargs Hf Hmap
                | f za text Hargs Hf | f za text Hargs Hf | f za text Hargs Hf
                | f za text Hargs Hf
                | f map za text root ev' HL Hev Hst | f map za text root ev' HL Hev Hst ];
    try (split; [cbn; lia | split;
           [ intros st ev Hin; exfalso; cbn in Hin; intuition discriminate
           | intros [H|H]; discriminate H ]]).
  - destruct (talks_quiet _ (report_abort_talks K f (state_after ev'))) as (_ & _ & He).
    assert (E : evaluations
                  (before_report K W argv f map za text ev'
                   ++ fst (report_abort K (Some f) (state_after ev'))
                   ++ close_if (package_zip (info_after ev')))
                = [(context K argv f map za text, ev')])
      by now rewrite !evaluations_app, before_report_evaluations, He, close_if_quiet.
    split; [rewrite E; cbn; lia|]. split.
    + intros st ev Hin. apply evaluations_In in Hin. rewrite E in Hin.
      destruct Hin as [Hin|[]]. injection Hin as <- <-. now rewrite Hst.
    + intros _. eauto.
  - assert (E : evaluations
                  (before_report K W argv f map za text ev'
                   ++ EvFprintf f ("ui_print script succeeded: result was ["
                                   ++ c_str (result ev') ++ "]" ++ newline)
                      :: close_if (package_zip (info_after ev')))
                = [(context K argv f map za text, ev')]).
    { rewrite evaluations_app, before_report_evaluations. cbn [evaluations List.app].
      now rewrite close_if_quiet. }
    split; [rewrite E; cbn; lia|]. split.
    + intros st ev Hin. apply evaluations_In in Hin. rewrite E in Hin.
      destruct Hin as [Hin|[]]. injection Hin as <- <-. now rewrite Hst.
    + intros _. eauto.
Qed.

(** X3.  Nothing reaches the parent before the script is evaluated: a run
    that ends otherwise than with 0 or 7 (bad arguments, no pipe, no
    package, no script, parse errors) has written no byte on the command
    pipe and has not called [Evaluate]. *)
Theorem silent_before_evaluation (K : ErrorCodes) (W : World) (argv : list string) :
  snd (main K W argv) <> Exit 0 ->
  snd (main K W argv) <> Exit 7 ->
  pipe_text (fst (main K W argv)) = EmptyString
  /\ evaluations (fst (main K W argv)) = [].
Proof.
  pose proof (main_run K W argv) as R.
  destruct (main K W argv) as [t o]. cbn [fst snd] in *.
  intros H0 H7. inversion R; subst; try congruence; split; reflexivity.
Qed.

Lemma silent_before_evaluation_witness :
  pipe_text (fst (main sample_codes (sample_world 5 0 0 1 true "OK" EmptyString (-1))
                       sample_argv)) = EmptyString
  /\ evaluations (fst (main sample_codes (sample_world 5 0 0 1 true "OK" EmptyString (-1))
                            sample_argv)) = [].
Proof.
  apply (silent_before_evaluation sample_codes
           (sample_world 5 0 0 1 true "OK" EmptyString (-1)) sample_argv);
    vm_compute; discriminate.
Defined.

(** ** The archive, whatever the evaluator does *)

(** X4.  In every run the archive is opened at most once and closed at most
    once; when it is closed, the closing is the last thing [main] does, and
    the archive was opened before.  This holds also when the evaluator has
    changed the handle in [UpdaterInfo]. *)
Theorem close_comes_last (K : ErrorCodes) (W : World) (argv : list string) :
  (List.length (opened (fst (main K W argv))) <= 1)%nat
  /\ (closed (fst (main K W argv)) = []
      \/ exists pre h,
           fst (main K W argv) = (pre ++ [EvCloseArchive h])%list
           /\ closed pre = []
           /\ opened pre <> []).
Proof.
  pose proof (main_run K W argv) as R.
  destruct (main K W argv) as [t o]. cbn [fst snd] in *.
  destruct R as [ text H4 H5 | text Hlen Hv | Hargs Hf | f text Hargs Hf Hmap
                | f za text Hargs Hf | f za text Hargs Hf | f za text Hargs Hf
                | f za text Hargs Hf
                | f map za text root ev' HL Hev Hst | f map za text root ev' HL Hev Hst ];
    try (split; [cbn; lia | now left]);
    try (split; [cbn; lia | right;
                 exists [EvFdopen (atoi (arg argv 2)); EvMapFile (c_str (arg argv 3));
                         EvOpenArchive za; EvStdout text], za;
                 repeat split; discriminate]).
  - split; [cbn; lia | right].
    exists ([EvFdopen (atoi (arg argv 2)); EvMapFile (c_str (arg argv 3));
             EvOpenArchive za] ++ registrations ++ [EvStdout text])%list, za.
    repeat split; discriminate.
  - destruct (talks_quiet _ (report_abort_talks K f (state_after ev'))) as (Ho & Hc & _).
    split.
    + rewrite !opened_app, before_report_opened, Ho. unfold close_if.
      destruct (_ =? 0); cbn; lia.
    + unfold close_if. destruct (package_zip (info_after ev') =? 0).
      * left. now rewrite !closed_app, before_report_closed, Hc.
      * right. exists (before_report K W argv f map za text ev'
                       ++ fst (report_abort K (Some f) (state_after ev')))%list,
                      (package_zip (info_after ev')).
        split; [now rewrite app_assoc|]. split.
        -- now rewrite closed_app, before_report_closed, Hc.
        -- rewrite opened_app, before_report_opened. discriminate.
  - split.
    + rewrite !opened_app, before_report_opened. unfold close_if.
      destruct (_ =? 0); cbn; lia.
    + unfold close_if. destruct (package_zip (info_after ev') =? 0).
      * left. now rewrite !closed_app, before_report_closed.
      * right. exists (before_report K W argv f map za text ev'
                       ++ [EvFprintf f ("ui_print script succeeded: result was ["
                                        ++ c_str (result ev') ++ "]" ++ newline)])%list,
                      (package_zip (info_after ev')).
        split; [now rewrite <- app_assoc|]. split.
        -- now rewrite closed_app, before_report_closed.
        -- rewrite opened_app, before_report_opened. discriminate.
Qed.

(** ** The context of the evaluation *)

Section ContextFacts.

Variable K : ErrorCodes.
Variable W : World.

(** The one call of [Evaluate] in a run, if there is one, is made on
    [context], after everything was loaded. *)
Lemma evaluation_in_run (argv : list string) (st : State) (ev : Evaluation) :
  In (EvEvaluate st ev) (fst (main K W argv)) ->
  exists f map za text root,
    Loaded W argv f map za text root
    /\ st = context K argv f map za text
    /\ ev = Evaluate W st root
    /\ opened (fst (main K W argv)) = [za].
Proof.
  pose proof (main_run K W argv) as R.
  destruct (main K W argv) as [t o]. cbn [fst snd] in *.
  destruct R as [ text H4 H5 | text Hlen Hv | Hargs Hf | f text Hargs Hf Hmap
                | f za text Hargs Hf | f za text Hargs Hf | f za text Hargs Hf
                | f za text Hargs Hf
                | f map za text root ev' HL Hev Hst | f map za text root ev' HL Hev Hst ];
    intros Hin; try (exfalso; cbn in Hin; intuition discriminate);
    apply evaluations_In in Hin.
  - destruct (talks_quiet _ (report_abort_talks K f (state_after ev'))) as (Ho & _ & He).
    rewrite !evaluations_app, before_report_evaluations, He, close_if_quiet in Hin.
    destruct Hin as [Hin|[]]. injection Hin as <- <-.
    exists f, map, za, text, root.
    split; [exact HL|]. split; [reflexivity|]. split; [exact Hev|].
    rewrite !opened_app, before_report_opened, Ho. unfold close_if.
    now destruct (_ =? 0).
  - rewrite evaluations_app, before_report_evaluations in Hin.
    cbn [evaluations List.app] in Hin. rewrite close_if_quiet in Hin.
    destruct Hin as [Hin|[]]. injection Hin as <- <-.
    exists f, map, za, text, root.
    split; [exact HL|]. split; [reflexivity|]. split; [exact Hev|].
    rewrite !opened_app, before_report_opened. cbn [opened]. unfold close_if.
    now destruct (_ =? 0).
Qed.


End ContextFacts.



(** X6.  The retry flag of the context is on exactly when there are five
    arguments and the fifth is "retry". *)
Theorem retry_flag_iff_retry_argument (K : ErrorCodes) (W : World) (argv : list string)
    (st : State) (ev : Evaluation) :
  In (EvEvaluate st ev) (fst (main K W argv)) ->
  (is_retry st = true
   <-> (List.length argv = 5%nat /\ c_str (arg argv 4) = "retry")).
Proof.
  intros Hin.
  destruct (evaluation_in_run K W argv st ev Hin)
    as (f & map & za & text & root & HL & -> & _ & _).
  cbn [context is_retry]. unfold retry_requested.
  rewrite andb_true_iff, !Z.eqb_eq, strcmp_zero.
  change (c_str "retry") with "retry". split; intros [H1 H2]; split; auto; lia.
Qed.

Lemma retry_flag_iff_retry_argument_witness :
  is_retry (context sample_codes retry_argv 3 sample_map 7 "abort") = true
  <-> (List.length retry_argv = 5%nat /\ c_str (arg retry_argv 4) = "retry").
Proof.
  apply (retry_flag_iff_retry_argument sample_codes ok_world retry_argv
           (context sample_codes retry_argv 3 sample_map 7 "abort")
           (Evaluate ok_world (context sample_codes retry_argv 3 sample_map 7 "abort") tt)).
  vm_compute. auto 20.
Defined.

(** ** More on the report of an aborted script *)

Section ReportFacts.

Lemma Split_keeps_out (c : ascii) (s d : string) :
  mem_char c s = false -> Forall (fun p => mem_char c p = false) (Split s d).
Proof.
  induction s as [|x s IH]; cbn [mem_char Split]; intros H.
  - repeat constructor.
  - apply orb_false_elim in H. destruct H as [Hx Hs]. specialize (IH Hs).
    destruct (mem_char x d).
    + constructor; [reflexivity | exact IH].
    + destruct (Split s d) as [|h t]; inversion IH; subst.
      * repeat constructor. cbn [mem_char]. now rewrite Hx.
      * constructor; [|assumption]. cbn [mem_char]. rewrite Hx. assumption.
Qed.

(** Splitting at the newlines and joining with newlines gives the text
    back. *)
Lemma join_Split (s : string) : join newline (Split s newline) = s.
Proof.
  induction s as [|c s IH]; [reflexivity|].
  cbn [Split]. rewrite mem_char_newline.
  destruct (Ascii.eqb_spec c LF) as [->|Hc].
  - destruct (Split s newline) as [|h t] eqn:E;
      [exfalso; exact (Split_not_nil _ _ E)|].
    cbn [join]. cbn [join] in IH. rewrite IH. reflexivity.
  - destruct (Split s newline) as [|h t] eqn:E;
      [exfalso; exact (Split_not_nil _ _ E)|].
    destruct t as [|h' t]; cbn [join] in *; rewrite <- IH; reflexivity.
Qed.

Lemma map_c_str_id (pieces : list string) :
  Forall (fun p => mem_char NUL p = false) pieces ->
  map (fun l => "ui_print " ++ c_str l) pieces = map (append "ui_print ") pieces.
Proof.
  induction 1 as [|p pieces Hp _ IH]; [reflexivity|].
  cbn [map]. now rewrite IH, (c_str_id _ Hp).
Qed.

Lemma stored_code_not_E (line : string) :
  char_at line 0 <> "E"%char -> stored_code line = None.
Proof.
  intros H. unfold stored_code.
  destruct (Ascii.eqb_spec (char_at line 0) "E"); [contradiction|].
  now rewrite andb_false_r.
Qed.

Lemma fold_left_not_E (lines : list string) (state : State) :
  Forall (fun l => char_at l 0 <> "E"%char) lines ->
  fold_left after_line lines state = state.
Proof.
  intros H. revert state. induction H as [|l lines Hl _ IH]; intros state.
  - reflexivity.
  - cbn [fold_left]. unfold after_line at 2.
    rewrite (stored_code_not_E _ Hl). apply IH.
Qed.

End ReportFacts.

(** X7.  Whatever the abort message, a report carries an error code other
    than "no error": the [log error] line is there, and its number is never
    [kNoError]. *)
Theorem report_carries_an_error_code (K : ErrorCodes) (f : FILE) (state : State) :
  kScriptExecutionFailure K <> kNoError K ->
  exists code,
    final_error_code K (Some f) state = Some code
    /\ code <> kNoError K
    /\ In ("log error: " ++ show_int code)
          (pipe_lines (fst (report_abort K (Some f) state))).
Proof.
  intros Hk. exists (error_code (classified K state)). split; [|split].
  - apply final_error_code_classified.
  - unfold classified.
    destruct (Z.eqb_spec (error_code (scanned state)) (kNoError K));
      cbn [set_error_code error_code]; congruence.
  - rewrite report_abort_lines. apply in_or_app. right. now left.
Qed.

Lemma report_carries_an_error_code_witness :
  exists code,
    final_error_code sample_codes (Some 3) (aborted "E-1: odd" 0 (-1)) = Some code
    /\ code <> -1
    /\ In ("log error: " ++ show_int code)
          (pipe_lines (fst (report_abort sample_codes (Some 3) (aborted "E-1: odd" 0 (-1))))).
Proof.
  apply (report_carries_an_error_code sample_codes 3 (aborted "E-1: odd" 0 (-1))).
  simpl. lia.
Defined.

(** X8.  The lines of a report come in a fixed order: the [ui_print] lines
    of the message, then one [log error] line, then the [log cause] line if
    the cause code is not the default, then [retry_update] if the cause is
    one of the two that ask for a retry.  So [retry_update], when sent, is
    the last line and follows a [log cause] line. *)
Theorem report_lines_in_order (K : ErrorCodes) (f : FILE) (state : State) :
  exists code,
    final_error_code K (Some f) state = Some code
    /\ pipe_lines (fst (report_abort K (Some f) state))
       = (ui_print_lines (fst (report_abort K (Some f) state))
          ++ ("log error: " ++ show_int code)%string
             :: (if cause_code state =? kNoCause K then []
                 else ("log cause: " ++ show_int (cause_code state))%string
                      :: (if (cause_code state =? kPatchApplicationFailure K)
                             || (cause_code state =? kEioFailure K)
                          then ["retry_update"] else [])))%list.
Proof.
  exists (error_code (classified K state)). split.
  - apply final_error_code_classified.
  - rewrite report_abort_ui_print, report_abort_lines. reflexivity.
Qed.

(** X9.  Nothing of the abort message is lost on the way to the parent: for
    a message without NUL bytes, the [ui_print] lines are the pieces of the
    message, each after "ui_print ", and the pieces joined with newlines are
    the message. *)
Theorem abort_message_round_trip (K : ErrorCodes) (f : FILE) (state : State) :
  errmsg state <> EmptyString ->
  mem_char NUL (errmsg state) = false ->
  exists pieces,
    ui_print_lines (fst (report_abort K (Some f) state))
    = map (append "ui_print ") pieces
    /\ join newline pieces = errmsg state.
Proof.
  intros Hne Hnul. exists (Split (errmsg state) newline). split.
  - rewrite report_abort_ui_print. unfold message_lines.
    destruct (String.eqb_spec (errmsg state) EmptyString); [contradiction|].
    apply map_c_str_id, Split_keeps_out, Hnul.
  - apply join_Split.
Qed.

Lemma abort_message_round_trip_witness :
  exists pieces,
    ui_print_lines (fst (report_abort sample_codes (Some 3)
                           (aborted E30_E40 (-1) (-1))))
    = map (append "ui_print ") pieces
    /\ join newline pieces = E30_E40.
Proof.
  apply (abort_message_round_trip sample_codes 3 (aborted E30_E40 (-1) (-1)));
    [discriminate | reflexivity].
Defined.

(** X10.  Only a line whose first byte is [E] can set the error code: when
    no line of the abort message starts with [E], the report carries the
    code the context had, or the script execution failure code if that was
    "no error". *)
Theorem error_code_kept_without_E_lines (K : ErrorCodes) (f : FILE) (state : State) :
  Forall (fun l => char_at l 0 <> "E"%char) (Split (errmsg state) newline) ->
  final_error_code K (Some f) state = Some (forced K (error_code state)).
Proof.
  intros H. rewrite final_error_code_classified.
  assert (Hs : scanned state = state).
  { unfold scanned. destruct (String.eqb (errmsg state) EmptyString); [reflexivity|].
    now apply fold_left_not_E. }
  unfold classified, forced. rewrite Hs.
  now destruct (error_code state =? kNoError K).
Qed.

Lemma error_code_kept_without_E_lines_witness :
  final_error_code sample_codes (Some 3) (aborted " E30: indented" 12 (-1)) = Some 12.
Proof.
  apply (error_code_kept_without_E_lines sample_codes 3
           (aborted " E30: indented" 12 (-1))).
  repeat constructor. discriminate.
Defined.



(** ** The package that cannot be used *)

Section Loading.

Variable K : ErrorCodes.
Variable W : World.

Lemma c_str_no_nul (s : string) : mem_char NUL (c_str s) = false.
Proof.
  induction s as [|c s IH]; [reflexivity|]. cbn [c_str].
  destruct (Ascii.eqb_spec c NUL) as [->|Hc]; [reflexivity|].
  cbn [mem_char]. rewrite IH, orb_false_r. apply Ascii.eqb_neq. congruence.
Qed.

Lemma string_of_uint_no_nul (d : Decimal.uint) :
  mem_char NUL (NilEmpty.string_of_uint d) = false.
Proof. induction d; simpl; auto. Qed.

Lemma show_int_no_nul (n : Z) : mem_char NUL (show_int n) = false.
Proof.
  unfold show_int, NilZero.string_of_int, NilZero.string_of_uint.
  destruct (Z.to_int n) as [d|d]; destruct d; simpl;
    auto using string_of_uint_no_nul.
Qed.

(** For a message without NUL, [LOG] prints the message and a newline. *)
Lemma log_text_plain (message : string) :
  mem_char NUL message = false -> log_text message = message ++ newline.
Proof.
  unfold log_text, UpdaterLogger.
  induction message as [|c m IH]; [reflexivity|].
  cbn [mem_char]. intros H. apply orb_false_elim in H. destruct H as [Hc Hm].
  specialize (IH Hm). cbn [Split]. rewrite mem_char_newline.
  destruct (Ascii.eqb_spec c LF) as [->|Hlf].
  - cbn [fold_right]. rewrite IH. reflexivity.
  - destruct (Split m newline) as [|h t] eqn:E;
      [exfalso; exact (Split_not_nil _ _ E)|].
    cbn [fold_right] in IH |- *. cbn [c_str].
    rewrite Ascii.eqb_sym in Hc. rewrite Hc. cbn [append]. now rewrite IH.
Qed.

Lemma check_args_ok (argv : list string) :
  args_ok argv -> check_args argv = ([], inl tt).
Proof.
  intros [Hlen Hv]. unfold check_args. cbv zeta.
  assert (Hc : negb (Z.of_nat (List.length argv) =? 4)
               && negb (Z.of_nat (List.length argv) =? 5) = false).
  { destruct Hlen as [-> | ->]; reflexivity. }
  rewrite Hc. apply version_check in Hv. rewrite Hv. reflexivity.
Qed.

Lemma bind_ret_nil {A B : Type} (a : A) (k : A -> M B) : bind ([], inl a) k = k a.
Proof. cbn [bind]. now destruct (k a). Qed.

(** [main] for arguments that pass the checks and a pipe that opens: what
    is left is the package. *)
Lemma main_after_pipe (argv : list string) (f : FILE) :
  args_ok argv ->
  fdopen W (atoi (arg argv 2)) = Some f ->
  main_body K W argv
  = bind ([EvFdopen (atoi (arg argv 2))], inl (Some f))
      (fun cmd_pipe =>
         '(map, za, script) <- extract_script W argv ;;
         root <- parse_script W za script ;;
         ev <- evaluate_script K W argv cmd_pipe map za script root ;;
         let updater_info := info_after ev in
         (if negb (status ev) then
            report_abort K cmd_pipe (state_after ev) ;;
            when (negb (package_zip updater_info =? 0))
              (CloseArchive (package_zip updater_info)) ;;
            Return 7
          else
            fprintf cmd_pipe ("ui_print script succeeded: result was ["
                              ++ c_str (result ev) ++ "]" ++ newline)) ;;
         when (negb (package_zip updater_info =? 0))
           (CloseArchive (package_zip updater_info)) ;;
         ret 0).
Proof.
  intros Hargs Hf. unfold main_body, open_cmd_pipe.
  rewrite (check_args_ok argv Hargs), bind_ret_nil. cbv zeta. rewrite Hf. reflexivity.
Qed.

End Loading.

(** X12.  A package that cannot be mapped: [main] returns 3 after one
    diagnostic on stdout, and no archive is opened or closed. *)
Theorem unmapped_package_exits_3 (K : ErrorCodes) (W : World) (argv : list string)
    (f : FILE) :
  args_ok argv ->
  fdopen W (atoi (arg argv 2)) = Some f ->
  MapFile W (c_str (arg argv 3)) = None ->
  main K W argv
  = ([EvFdopen (atoi (arg argv 2)); EvMapFile (c_str (arg argv 3));
      EvStdout ("failed to map package " ++ c_str (arg argv 3) ++ newline)],
     Exit 3).
Proof.
  intros Hargs Hf Hmap. unfold main.
  rewrite (main_after_pipe K W argv f Hargs Hf).
  unfold extract_script. cbv zeta. rewrite Hmap. step.
  rewrite log_text_plain; [reflexivity|].
  now rewrite mem_char_append, c_str_no_nul.
Qed.

Lemma unmapped_package_exits_3_witness :
  main sample_codes (broken_package false 0 0 0) sample_argv
  = ([EvFdopen 3; EvMapFile "/tmp/update.zip";
      EvStdout ("failed to map package /tmp/update.zip" ++ newline)],
     Exit 3).
Proof.
  apply (unmapped_package_exits_3 sample_codes (broken_package false 0 0 0) sample_argv 3).
  - split; [left; reflexivity | right; right; reflexivity].
  - reflexivity.
  - reflexivity.
Defined.

(** X13.  An archive that does not open: [main] closes the handle that
    [OpenArchiveFromMemory] stored all the same, once, and returns 3; it
    looks for no script. *)
Theorem unopened_archive_is_closed (K : ErrorCodes) (W : World) (argv : list string)
    (f : FILE) (map : MemMapping.t) (open_err : Z) (za : ZipArchiveHandle) :
  args_ok argv ->
  fdopen W (atoi (arg argv 2)) = Some f ->
  MapFile W (c_str (arg argv 3)) = Some map ->
  OpenArchiveFromMemory W (MemMapping.addr map) (MemMapping.length map)
                        (c_str (arg argv 3)) = (open_err, za) ->
  open_err <> 0 ->
  main K W argv
  = ([EvFdopen (atoi (arg argv 2)); EvMapFile (c_str (arg argv 3)); EvOpenArchive za;
      EvStdout ("failed to open package " ++ c_str (arg argv 3) ++ ": "
                ++ c_str (ErrorCodeString W open_err) ++ newline);
      EvCloseArchive za],
     Exit 3).
Proof.
  intros Hargs Hf Hmap Hopen Herr. unfold main.
  rewrite (main_after_pipe K W argv f Hargs Hf).
  unfold extract_script. cbv zeta. rewrite Hmap, Hopen.
  destruct (Z.eqb_spec open_err 0); [contradiction|].
  cbn [negb]. step. rewrite log_text_plain.
  - rewrite !append_assoc. reflexivity.
  - now rewrite !mem_char_append, !c_str_no_nul.
Qed.

Lemma unopened_archive_is_closed_witness :
  main sample_codes (broken_package true (-5) 0 0) sample_argv
  = ([EvFdopen 3; EvMapFile "/tmp/update.zip"; EvOpenArchive 7;
      EvStdout ("failed to open package /tmp/update.zip: I/O error" ++ newline);
      EvCloseArchive 7],
     Exit 3).
Proof.
  apply (unopened_archive_is_closed sample_codes (broken_package true (-5) 0 0)
           sample_argv 3 sample_map (-5) 7).
  - split; [left; reflexivity | right; right; reflexivity].
  - reflexivity.
  - reflexivity.
  - reflexivity.
  - discriminate.
Defined.

(** X14.  A script with parse errors is never evaluated: when the parser
    returns non-zero, or returns zero and yet counts an error, [main] prints
    the count, closes the archive and returns 6, having written nothing on
    the command pipe. *)
Theorem parse_errors_exit_6 (K : ErrorCodes) (W : World) (argv : list string)
    (f : FILE) (map : MemMapping.t) (za : ZipArchiveHandle) (entry : ZipEntry)
    (text : string) (error error_count : Z) (root : Expr W) :
  args_ok argv ->
  fdopen W (atoi (arg argv 2)) = Some f ->
  MapFile W (c_str (arg argv 3)) = Some map ->
  OpenArchiveFromMemory W (MemMapping.addr map) (MemMapping.length map)
                        (c_str (arg argv 3)) = (0, za) ->
  FindEntry W za SCRIPT_NAME = (0, entry) ->
  ExtractToMemory W za entry = (0, text) ->
  ParseString W text = (error, error_count, root) ->
  error <> 0 \/ 0 < error_count ->
  main K W argv
  = (([EvFdopen (atoi (arg argv 2)); EvMapFile (c_str (arg argv 3)); EvOpenArchive za]
      ++ registrations
      ++ [EvStdout (show_int error_count ++ " parse errors" ++ newline);
          EvCloseArchive za])%list,
     Exit 6).
Proof.
  intros Hargs Hf Hmap Hopen Hfind Hext Hparse Herr. unfold main.
  rewrite (main_after_pipe K W argv f Hargs Hf).
  unfold extract_script, parse_script. cbv zeta.
  rewrite Hmap, Hopen. rewrite Z.eqb_refl. cbn [negb]. step.
  rewrite Hfind. rewrite Z.eqb_refl. cbn [negb]. step.
  rewrite Hext. rewrite Z.eqb_refl. cbn [negb]. step.
  rewrite Hparse.
  assert (Hb : negb (error =? 0) || (0 <? error_count) = true).
  { apply orb_true_iff. destruct Herr as [H|H].
    - left. now apply negb_true_iff, Z.eqb_neq.
    - right. now apply Z.ltb_lt. }
  rewrite Hb. step. rewrite log_text_plain.
  - rewrite !append_assoc. reflexivity.
  - now rewrite mem_char_append, show_int_no_nul.
Qed.

Lemma parse_errors_exit_6_witness :
  main sample_codes (broken_package true 0 0 2) sample_argv
  = (([EvFdopen 3; EvMapFile "/tmp/update.zip"; EvOpenArchive 7]
      ++ registrations
      ++ [EvStdout ("2 parse errors" ++ newline); EvCloseArchive 7])%list,
     Exit 6).
Proof.
  apply (parse_errors_exit_6 sample_codes (broken_package true 0 0 2) sample_argv
           3 sample_map 7 {| uncompressed_length := 5 |} "abort" 0 2 tt);
    try reflexivity.
  - split; [left; reflexivity | right; right; reflexivity].
  - right. reflexivity.
Defined.

(** ** The descriptor argument *)

(** X15.  The second argument is not checked: when it does not start with
    a number, [atoi] gives 0 and the first thing [main] does after the
    argument checks is to open descriptor 0 as the command pipe. *)
Theorem non_numeric_descriptor_is_0 (K : ErrorCodes) (W : World) (argv : list string) :
  args_ok argv ->
  (forall v, scan_d (c_str (arg argv 2)) <> Converted v) ->
  hd_error (fst (main K W argv)) = Some (EvFdopen 0).
Proof.
  intros Hargs Hnum.
  assert (H0 : atoi (arg argv 2) = 0).
  { unfold atoi. destruct (scan_d (c_str (arg argv 2))) as [v| |];
      [exfalso; exact (Hnum v eq_refl) | reflexivity | reflexivity]. }
  pose proof (main_run K W argv) as R.
  destruct (main K W argv) as [t o]. cbn [fst snd] in *.
  rewrite <- H0.
  inversion R; subst; unfold args_ok in *; try (exfalso; tauto); reflexivity.
Qed.

Lemma non_numeric_descriptor_is_0_witness :
  hd_error (fst (main sample_codes ok_world ["updater"; "3"; "pipe"; "/tmp/update.zip"]))
  = Some (EvFdopen 0).
Proof.
  apply (non_numeric_descriptor_is_0 sample_codes ok_world
           ["updater"; "3"; "pipe"; "/tmp/update.zip"]).
  - split; [left; reflexivity | right; right; reflexivity].
  - intros v H. vm_compute in H. discriminate H.
Defined.

Lemma null_pipe_faults_witness :
  main sample_codes ok_world ["updater"; "1"; "12"; "/tmp/update.zip"]
  = ([EvFdopen 12], Fault).
Proof.
  apply (null_pipe_faults sample_codes ok_world ["updater"; "1"; "12"; "/tmp/update.zip"]).
  - split; [left; reflexivity | left; reflexivity].
  - reflexivity.
Defined.

(** ** A script that succeeds, whatever it returns *)



(** ** The exit codes *)

(** X18.  An exit code of [main] is a number from 0 to 7. *)
Theorem exit_code_range (K : ErrorCodes) (W : World) (argv : list string) (code : Z) :
  snd (main K W argv) = Exit code -> 0 <= code <= 7.
Proof.
  pose proof (main_run K W argv) as R.
  destruct (main K W argv) as [t o]. cbn [fst snd] in *.
  intros ->. inversion R; subst; lia.
Qed.

Lemma exit_code_range_witness :
  snd (main sample_codes (sample_world 0 9 0 1 true "OK" EmptyString (-1)) sample_argv)
  = Exit 5
  /\ 0 <= 5 <= 7.
Proof.
  split; [reflexivity|].
  apply (exit_code_range sample_codes (sample_world 0 9 0 1 true "OK" EmptyString (-1))
           sample_argv 5).
  reflexivity.
Defined.
